(** * Kenya vaccination bulletin scraper: a shallow embedding

    Source: [scripts/src/cowidev/vax/incremental/kenya.py], class [Kenya].

    Python [str] values are modelled as [string]; a character is a code
    point below 256.  Exceptions are an explicit result type, network and
    output effects are a trace of events threaded through a small monad. *)

From Stdlib Require Import String Ascii List ZArith NArith Bool Lia.
Import ListNotations.

Local Open Scope list_scope.
Local Open Scope string_scope.

(** ** Python exceptions and results *)

Inductive exn : Type :=
| TypeError            (* subscripting None *)
| AttributeError       (* .group on None *)
| IndexError           (* pages[0], getPage(0) on an empty list *)
| UnboundLocalError    (* local variable read before assignment *)
| ValueError           (* int() of a non-number *)
| KeyError             (* missing Series label *)
| ParserError          (* pandas could not read the date *)
| IOError              (* network or PDF reader failure *)
| PyException (msg : string).   (* raise Exception(msg) *)

Inductive result (A : Type) : Type :=
| Ok (a : A)
| Raise (e : exn).
Arguments Ok {A} a.
Arguments Raise {A} e.

Definition rbind {A B} (r : result A) (f : A -> result B) : result B :=
  match r with
  | Ok a => f a
  | Raise e => Raise e
  end.

Declare Scope res_scope.
Delimit Scope res_scope with res.
Notation "x <- r ;; k" := (rbind r (fun x => k))
  (at level 61, r at next level, right associativity) : res_scope.

(** ** Characters *)

Module Chr.

Definition code (c : ascii) : N := N_of_ascii c.

Definition between (lo hi : N) (c : ascii) : bool :=
  ((lo <=? code c) && (code c <=? hi))%N.

(** [\d] restricted to code points below 256: the decimal digits. *)
Definition is_digit (c : ascii) : bool := between 48 57 c.

(** [[a-z]] *)
Definition is_lower_az (c : ascii) : bool := between 97 122 c.

Definition newline : ascii := ascii_of_N 10.

(** [.] without DOTALL: anything but a line feed. *)
Definition is_dot (c : ascii) : bool := negb (Ascii.eqb c newline).

(** [str.isspace] for one character below 256, the separators of
    [str.split()] without argument. *)
Definition is_space (c : ascii) : bool :=
  between 9 13 c || between 28 32 c
  || (code c =? 133)%N || (code c =? 160)%N.

(** [str.lower] for one character below 256: A-Z and the accented
    capitals of Latin-1 (not the multiplication sign) move up by 32. *)
Definition lower (c : ascii) : ascii :=
  if between 65 90 c || between 192 214 c || between 216 222 c
  then ascii_of_N (code c + 32)
  else c.

Definition digit_val (c : ascii) : Z := Z.of_N (code c) - 48.

End Chr.

(** ** String helpers used by the script *)

Module Str.

Fixpoint map (f : ascii -> ascii) (s : string) : string :=
  match s with
  | EmptyString => EmptyString
  | String c s' => String (f c) (map f s')
  end.

Fixpoint filter (p : ascii -> bool) (s : string) : string :=
  match s with
  | EmptyString => EmptyString
  | String c s' => if p c then String c (filter p s') else filter p s'
  end.

(** [s.lower()] *)
Definition lower (s : string) : string := map Chr.lower s.

(** [s.replace("\n", "")] *)
Definition remove_newlines (s : string) : string :=
  filter (fun c => negb (Ascii.eqb c Chr.newline)) s.

(** [s.startswith(p)] *)
Fixpoint starts_with (p s : string) : bool :=
  match p, s with
  | EmptyString, _ => true
  | String a p', String b s' => Ascii.eqb a b && starts_with p' s'
  | String _ _, EmptyString => false
  end.

(** [needle in hay] *)
Fixpoint contains (needle hay : string) : bool :=
  starts_with needle hay ||
  match hay with
  | EmptyString => false
  | String _ hay' => contains needle hay'
  end.

(** [s.split()] without argument: the maximal runs of non-space
    characters, in order.  [split_go s] reads [s] from its end and
    returns the word that is still open at the front of [s], with the
    words closed behind it. *)
Definition push_word (w : string) (ws : list string) : list string :=
  match w with
  | EmptyString => ws
  | String _ _ => w :: ws
  end.

Fixpoint split_go (s : string) : string * list string :=
  match s with
  | EmptyString => (EmptyString, [])
  | String c s' =>
      let (w, ws) := split_go s' in
      if Chr.is_space c then (EmptyString, push_word w ws)
      else (String c w, ws)
  end.

Definition split (s : string) : list string :=
  let (w, ws) := split_go s in push_word w ws.

(** [s.lstrip()], [s.rstrip()], [s.strip()] *)
Fixpoint lstrip (s : string) : string :=
  match s with
  | EmptyString => EmptyString
  | String c s' => if Chr.is_space c then lstrip s' else s
  end.

Fixpoint rstrip (s : string) : string :=
  match s with
  | EmptyString => EmptyString
  | String c s' =>
      match rstrip s' with
      | EmptyString =>
          if Chr.is_space c then EmptyString else String c EmptyString
      | String _ _ as r => String c r
      end
  end.

Definition strip (s : string) : string := rstrip (lstrip s).

(** Every run of whitespace replaced by one space; [in_run] says that
    the character before was whitespace. *)
Fixpoint collapse (s : string) (in_run : bool) : string :=
  match s with
  | EmptyString => EmptyString
  | String c s' =>
      if Chr.is_space c
      then (if in_run then collapse s' true
            else String " " (collapse s' true))
      else String c (collapse s' false)
  end.

(** Every character of [s] passes [p]. *)
Fixpoint all (p : ascii -> bool) (s : string) : bool :=
  match s with
  | EmptyString => true
  | String c s' => p c && all p s'
  end.

(** [hay.find(needle)]: the offset of the first occurrence. *)
Fixpoint find (needle hay : string) : option nat :=
  if starts_with needle hay then Some 0
  else match hay with
       | EmptyString => None
       | String _ hay' => option_map S (find needle hay')
       end.

(** [sep.join(words)] *)
Fixpoint join (sep : string) (words : list string) : string :=
  match words with
  | [] => EmptyString
  | [w] => w
  | w :: ws => w ++ sep ++ join sep ws
  end.

End Str.

(** ** Regular expressions of the [re] module

    The fragment the script's patterns are written in: literals, classes,
    sequence, greedy [?], greedy repetition of a class, capturing groups
    and [$].  Matching is Python's backtracking search: greedy choices
    first, the first success wins. *)

Module Re.

Inductive regex : Type :=
| Eps
| Chr (c : ascii)
| Cls (p : ascii -> bool)
| Seq (r1 r2 : regex)
| Opt (r : regex)              (* r?  *)
| Star (p : ascii -> bool)     (* [..]*  *)
| Grp (n : nat) (r : regex)    (* ( r ), group number n *)
| Eol.                         (* $ *)

(** A literal run of characters. *)
Fixpoint Lit (s : string) : regex :=
  match s with
  | EmptyString => Eps
  | String c s' => Seq (Chr c) (Lit s')
  end.

(** [[..]+] *)
Definition Plus (p : ascii -> bool) : regex := Seq (Cls p) (Star p).

(** Sequence of a list of pieces. *)
Fixpoint Cat (rs : list regex) : regex :=
  match rs with
  | [] => Eps
  | r :: rs' => Seq r (Cat rs')
  end.

Definition captures := list (nat * string).

Section Matcher.
Context {R : Type}.

(** Continuations receive the text consumed, the text left and the
    groups closed so far. *)
Definition cont := string -> string -> captures -> option R.

Definition orelse (a : option R) (b : unit -> option R) : option R :=
  match a with
  | Some x => Some x
  | None => b tt
  end.

(** Greedy repetition: take as many characters of the class as
    possible, give one back at a time on failure. *)
Fixpoint star (p : ascii -> bool) (s : string)
         (k : string -> string -> option R) : option R :=
  match s with
  | String c s' =>
      if p c
      then orelse (star p s' (fun w rest => k (String c w) rest))
                  (fun _ => k EmptyString s)
      else k EmptyString s
  | EmptyString => k EmptyString s
  end.

Fixpoint run (r : regex) (s : string) (g : captures) (k : cont)
  : option R :=
  match r with
  | Eps => k EmptyString s g
  | Chr c =>
      match s with
      | String c' s' =>
          if Ascii.eqb c c' then k (String c' EmptyString) s' g else None
      | EmptyString => None
      end
  | Cls p =>
      match s with
      | String c' s' =>
          if p c' then k (String c' EmptyString) s' g else None
      | EmptyString => None
      end
  | Seq r1 r2 =>
      run r1 s g (fun w1 s1 g1 =>
      run r2 s1 g1 (fun w2 s2 g2 => k (w1 ++ w2) s2 g2))
  | Opt r' =>
      orelse (run r' s g k) (fun _ => k EmptyString s g)
  | Star p => star p s (fun w rest => k w rest g)
  | Grp n r' =>
      run r' s g (fun w s' g' => k w s' ((n, w) :: g'))
  | Eol =>
      match s with
      | EmptyString => k EmptyString s g
      | String c EmptyString =>
          if Ascii.eqb c Chr.newline then k EmptyString s g else None
      | String _ (String _ _) => None
      end
  end.
End Matcher.

(** A match object: the whole match and the groups. *)
Record match_obj : Type := MkMatch {
  whole : string;
  groups : captures
}.

Fixpoint assoc (n : nat) (g : captures) : option string :=
  match g with
  | [] => None
  | (m, w) :: g' => if Nat.eqb n m then Some w else assoc n g'
  end.

(** [m.group(n)] for n >= 1; [None] when the group took no part. *)
Definition group (n : nat) (m : match_obj) : option string :=
  assoc n (groups m).

(** [re.match]: a match anchored at the start of [s]. *)
Definition match_here (r : regex) (s : string) : option match_obj :=
  run r s [] (fun w _ g => Some (MkMatch w g)).

(** [re.search]: the match at the leftmost start position. *)
Fixpoint search (r : regex) (s : string) : option match_obj :=
  match match_here r s with
  | Some m => Some m
  | None =>
      match s with
      | EmptyString => None
      | String _ s' => search r s'
      end
  end.

(** The groups that take part in every match of [r]. *)
Fixpoint sure_groups (r : regex) : list nat :=
  match r with
  | Seq r1 r2 => sure_groups r1 ++ sure_groups r2
  | Grp n r' => n :: sure_groups r'
  | _ => []
  end.

(** What a match is, without the search order: [matches r g w rest g']
    says that [r] can consume [w] in front of [rest], turning the groups
    [g] into [g'].  The matcher only ever returns such matches. *)
Inductive matches : regex -> captures -> string -> string -> captures
                    -> Prop :=
| M_Eps g rest : matches Eps g EmptyString rest g
| M_Chr c g rest : matches (Chr c) g (String c EmptyString) rest g
| M_Cls p c g rest :
    p c = true -> matches (Cls p) g (String c EmptyString) rest g
| M_Seq r1 r2 g g1 g2 w1 w2 rest :
    matches r1 g w1 (w2 ++ rest) g1 ->
    matches r2 g1 w2 rest g2 ->
    matches (Seq r1 r2) g (w1 ++ w2) rest g2
| M_OptSome r g g' w rest :
    matches r g w rest g' -> matches (Opt r) g w rest g'
| M_OptNone r g rest : matches (Opt r) g EmptyString rest g
| M_Star p g w rest :
    Str.all p w = true -> matches (Star p) g w rest g
| M_Grp n r g g' w rest :
    matches r g w rest g' -> matches (Grp n r) g w rest ((n, w) :: g')
| M_Eol g rest :
    rest = EmptyString \/ rest = String Chr.newline EmptyString ->
    matches Eol g EmptyString rest g.

End Re.

(** ** Helpers of the package that the script imports *)

Fixpoint int_of_digits (s : string) (acc : Z) : Z :=
  match s with
  | EmptyString => acc
  | String c s' => int_of_digits s' (10 * acc + Chr.digit_val c)%Z
  end.

(** Modelled from the spec: [cowidev.utils.clean.clean_count] is imported
    by the script and defined elsewhere in the package.  The spec has each
    captured figure "cleaned (strip thousands separators/decimal noise)
    into an integer": the characters that are not digits are dropped and
    the digits left are read in base ten.  With no digit left there is no
    integer to read, and [int] raises. *)
Definition clean_count (s : string) : result Z :=
  match Str.filter Chr.is_digit s with
  | EmptyString => Raise ValueError
  | String c ds => Ok (int_of_digits (String c ds) 0)
  end.

(** ** A [pandas.Series] with string labels *)

Module Series.

Inductive value : Type :=
| VInt (n : Z)
| VStr (s : string).

(** What [ds[k]] evaluates to: the value under a label held once, the
    sub-series of the values under a label held several times. *)
Inductive item : Type :=
| Scalar (v : value)
| Sub (vs : list value).

Definition t := list (string * value).

Fixpoint at_label (k : string) (ds : t) : list value :=
  match ds with
  | [] => []
  | (k', v) :: ds' =>
      if String.eqb k k' then v :: at_label k ds' else at_label k ds'
  end.

(** [ds[k]] *)
Definition getitem (k : string) (ds : t) : result item :=
  match at_label k ds with
  | [] => Raise KeyError
  | [v] => Ok (Scalar v)
  | vs => Ok (Sub vs)
  end.

Definition labels (ds : t) : list string := List.map fst ds.

End Series.

(** Modelled from the spec: [cowidev.vax.utils.incremental.enrich_data]
    is imported by the script and defined elsewhere in the package.  The
    spec has it "attach" a static string to the parsed row: the series is
    returned with one more entry, [row] labelled [value], after the
    entries it had. *)
Definition enrich_data (ds : Series.t) (row : string) (value : string)
  : Series.t :=
  (ds ++ [(row, Series.VStr value)])%list.

(** ** The patterns of the script *)

Module Pat.
Import Re.

Definition one (a : ascii) (c : ascii) : bool := Ascii.eqb a c.

(** [[\d,.]] *)
Definition num_dot (c : ascii) : bool :=
  Chr.is_digit c || one "," c || one "." c.

(** [[\d,]] *)
Definition num (c : ascii) : bool := Chr.is_digit c || one "," c.

(** [[\d.]] *)
Definition dec (c : ascii) : bool := Chr.is_digit c || one "." c.

(** [[0-9a-z]] *)
Definition alnum (c : ascii) : bool :=
  Chr.between 48 57 c || Chr.is_lower_az c.

(** [ye?a?rs] *)
Definition years : regex :=
  Cat [Chr "y"; Opt (Chr "e"); Opt (Chr "a"); Lit "rs"].

(** [_parse_pdf_link]: [.*IMMUNIZATION.*pdf$] *)
Definition pdf_link : regex :=
  Cat [Star Chr.is_dot; Lit "IMMUNIZATION"; Star Chr.is_dot; Lit "pdf"; Eol].

(** [_parse_date] *)
Definition date_anchor : string := "vaccine doses dispensed as at ".

Definition date : regex :=
  Seq (Lit date_anchor)
      (Cat [Opt (Grp 1 (Lit "day ")); Plus Chr.is_lower_az; Chr " ";
            Grp 2 (Cat [Plus alnum; Opt (Chr ","); Chr " ";
                        Plus Chr.is_lower_az; Lit " 202";
                        Cls Chr.is_digit])]).

(** [_parse_metrics], first pattern *)
Definition metrics : regex :=
  Cat [Lit "total doses administered above 18 "; years; Chr " ";
       Grp 1 (Plus num_dot);
       Lit " total partially vaccinated above 18 "; years; Chr " ";
       Grp 2 (Plus num_dot);
       Lit " total fully vaccinated above 18 yrs ";
       Grp 3 (Plus num_dot)].

(** [_parse_metrics], second pattern *)
Definition teen : regex :=
  Cat [Lit "15-18 yrs received first dose (pfizer vaccine) ";
       Grp 1 (Plus num)].

(** [_extract_jj_doses] *)
Definition rex_header : regex :=
  Lit ("priority group johnson & johnson dose 2 uptake total fully vaccinated (j&j + dose 2 uptake) partially"
       ++ " vaccinated (dose 1 uptake) % dose 2 uptake").

Definition rex_jj : regex :=
  Cat [Lit "total "; Grp 1 (Plus num); Chr " "; Plus num; Chr " ";
       Plus num; Chr " "; Plus num; Chr " "; Plus dec;
       Lit "% table 5 shows percentage of clients"].

Definition table5_marker : string :=
  "table 5: fully vaccinated vs. partially vaccinated above 18 years by priority group".

Definition header_changed : exn :=
  PyException "Header columns of table 5 have changed!".

End Pat.

(** [re.search(regex, text).group(n)]: [None] has no [group]. *)
Definition search_group (r : Re.regex) (n : nat) (text : string)
  : result string :=
  match Re.search r text with
  | None => Raise AttributeError
  | Some m =>
      match Re.group n m with
      | Some w => Ok w
      | None => Raise TypeError   (* the callee is handed None *)
      end
  end.

(** [pages[0]] *)
Definition first_page (pages : list string) : result string :=
  match pages with
  | [] => Raise IndexError
  | p :: _ => Ok p
  end.

(** ** Reading a date phrase

    [pd.to_datetime] belongs to pandas, not to this repository.  [Dates]
    models it on one family of phrases, the one the bulletin prints: a
    day number of one or two digits with an optional English ordinal
    ending and an optional comma, an English month name (in full or its
    first three letters) and a year of four digits.  There the model
    gives the date pandas gives, or an error where the month has no such
    day.

    Outside this family the model is not pandas.  It answers
    [ParserError] to every phrase that is not of three words of these
    kinds, while pandas reads many more phrases: "14 sept 2022" as
    2022-09-14, "of january 2022" as 2022-01-01.  The pattern of
    [_parse_date] admits such phrases, so for them the answer of
    [_parse_date] below is not the answer of the code.  No fact of this
    file rests on a [ParserError]: a fact that names a date is on a
    phrase of the family, and what the pattern finds and hands on is
    stated on [search_group Pat.date 2], without the model. *)

Module Dates.

Fixpoint span_digits (s : string) : string * string :=
  match s with
  | String c s' =>
      if Chr.is_digit c
      then let (ds, rest) := span_digits s' in (String c ds, rest)
      else (EmptyString, s)
  | EmptyString => (EmptyString, EmptyString)
  end.

Definition months : list (string * Z) :=
  [("january", 1); ("february", 2); ("march", 3); ("april", 4);
   ("may", 5); ("june", 6); ("july", 7); ("august", 8);
   ("september", 9); ("october", 10); ("november", 11);
   ("december", 12);
   ("jan", 1); ("feb", 2); ("mar", 3); ("apr", 4); ("jun", 6);
   ("jul", 7); ("aug", 8); ("sep", 9); ("oct", 10); ("nov", 11);
   ("dec", 12)]%Z.

Fixpoint lookup (k : string) (l : list (string * Z)) : option Z :=
  match l with
  | [] => None
  | (k', v) :: l' => if String.eqb k k' then Some v else lookup k l'
  end.

Definition ordinal_endings : list string := [""; "st"; "nd"; "rd"; "th"].

Definition day_of (tok : string) : option Z :=
  let (ds, rest) := span_digits tok in
  match ds with
  | EmptyString => None
  | String _ _ =>
      if existsb (fun e => String.eqb rest e || String.eqb rest (e ++ ","))
                 ordinal_endings
      then Some (int_of_digits ds 0)
      else None
  end.

Definition year_of (tok : string) : option Z :=
  let (ds, rest) := span_digits tok in
  if (String.length ds =? 4)%nat && String.eqb rest ""
  then Some (int_of_digits ds 0)
  else None.

Definition leap (y : Z) : bool :=
  ((y mod 4 =? 0) && (negb (y mod 100 =? 0) || (y mod 400 =? 0)))%Z.

Definition days_in (y m : Z) : Z :=
  (if m =? 2 then (if leap y then 29 else 28)
   else if (m =? 4) || (m =? 6) || (m =? 9) || (m =? 11) then 30
   else 31)%Z.

Definition digit (n : Z) : ascii := ascii_of_N (48 + Z.to_N n).

Definition pad2 (n : Z) : string :=
  String (digit (n / 10)) (String (digit (n mod 10)) EmptyString).

Definition pad4 (n : Z) : string :=
  pad2 (n / 100) ++ pad2 (n mod 100).

(** [str(date)]: ISO 8601 *)
Definition iso (y m d : Z) : string :=
  pad4 y ++ "-" ++ pad2 m ++ "-" ++ pad2 d.

(** [str(pd.to_datetime(date_str).date())] on the phrases of the family
    above; elsewhere [ParserError] marks a phrase that is not modelled. *)
Definition to_datetime_date (date_str : string) : result string :=
  match Str.split date_str with
  | [d; m; y] =>
      match day_of d, lookup m months, year_of y with
      | Some dd, Some mm, Some yy =>
          if ((1 <=? dd) && (dd <=? days_in yy mm))%Z
          then Ok (iso yy mm dd)
          else Raise ParserError
      | _, _, _ => Raise ParserError
      end
  | _ => Raise ParserError
  end.

End Dates.

(** ** The outside world: network, standard output, the dataset *)

(** An [<a>] element, with its [href] attribute if it has one. *)
Record anchor : Type := Anchor { href : option string }.

(** A parsed landing page: its [<a>] elements in document order. *)
Definition soup := list anchor.

Record world : Type := World {
  (** [get_soup(url, verify=False)] *)
  get_soup : string -> result soup;
  (** the text PyPDF2 extracts from each page of the document behind
      [requests.get(url, verify=False)] *)
  pdf_text : string -> result (list string)
}.

Inductive event : Type :=
| EvGetSoup (url : string)
| EvPrint (text : string)
| EvRequestsGet (url : string)
| EvIncrement (location total_vaccinations people_vaccinated
               people_fully_vaccinated date source_url vaccine : Series.item).

Definition trace := list event.

Module IO.

Definition io (A : Type) : Type := trace -> result A * trace.

Definition ret {A} (a : A) : io A := fun t => (Ok a, t).

Definition bind {A B} (c : io A) (f : A -> io B) : io B :=
  fun t =>
    match c t with
    | (Ok a, t') => f a t'
    | (Raise e, t') => (Raise e, t')
    end.

Definition emit (e : event) : io unit := fun t => (Ok tt, (t ++ [e])%list).

Definition lift {A} (r : result A) : io A := fun t => (r, t).

End IO.

Declare Scope io_scope.
Delimit Scope io_scope with io.
Notation "x <- c ;; k" := (IO.bind c (fun x => k))
  (at level 61, c at next level, right associativity) : io_scope.
Notation "c ;; k" := (IO.bind c (fun _ => k))
  (at level 61, right associativity) : io_scope.

(** ** class Kenya *)

Module Kenya.

(** [__init__] *)
Definition location : string := "Kenya".
Definition source_url : string := "https://www.health.go.ke".

(** The attribute filter [{"href": re.compile(...)}] on one element. *)
Definition href_matches (a : anchor) : bool :=
  match href a with
  | Some h =>
      match Re.search Pat.pdf_link h with
      | Some _ => true
      | None => false
      end
  | None => false
  end.

(** [soup.find("a", {...})]: the first element that passes, or None. *)
Definition soup_find (doc : soup) : option anchor :=
  List.find href_matches doc.

(** [soup.find(...)["href"]] *)
Definition find_href (doc : soup) : result string :=
  match soup_find doc with
  | None => Raise TypeError
  | Some a =>
      match href a with
      | Some h => Ok h
      | None => Raise KeyError
      end
  end.

Definition _parse_pdf_link (w : world) (url : string) : IO.io string :=
  (IO.emit (EvGetSoup url) ;;
   doc <- IO.lift (get_soup w url) ;;
   IO.lift (find_href doc))%io.

(** Inner function of [_get_text_from_pdf], on the text of one page. *)
Definition _extract_pdf_text (raw : string) : string :=
  let text := Str.remove_newlines raw in
  Str.lower (Str.join " " (Str.split text)).

Definition _get_text_from_pdf (w : world) (url_pdf : string)
  : IO.io (list string) :=
  (IO.emit (EvPrint url_pdf) ;;
   IO.emit (EvRequestsGet url_pdf) ;;
   raw <- IO.lift (pdf_text w url_pdf) ;;
   _ <- IO.lift (first_page raw) ;;          (* reader.getPage(0) *)
   IO.ret (List.map _extract_pdf_text raw))%io.

(** The search and its second group are the code's; the reading of
    [date_str] is the model of [Dates], with its limits. *)
Definition _parse_date (pdf_text : string) : result string :=
  (date_str <- search_group Pat.date 2 pdf_text ;;
   Dates.to_datetime_date date_str)%res.

(** The loop of [_extract_jj_doses]; [doses_jj] is the local variable,
    [None] as long as nothing was assigned to it. *)
Fixpoint jj_loop (pages : list string) (doses_jj : option string)
  : result (option string) :=
  match pages with
  | [] => Ok doses_jj
  | page :: rest =>
      if Str.contains Pat.table5_marker page then
        match Re.search Pat.rex_header page with
        | None => Raise Pat.header_changed
        | Some _ =>
            (d <- search_group Pat.rex_jj 1 page ;;
             jj_loop rest (Some d))%res
        end
      else jj_loop rest doses_jj
  end.

Definition _extract_jj_doses (pages : list string) : result Z :=
  (doses_jj <- jj_loop pages None ;;
   match doses_jj with
   | None => Raise UnboundLocalError
   | Some d => clean_count d
   end)%res.

Definition _parse_metrics (pages : list string) : result (Z * Z * Z) :=
  (page0 <- first_page pages ;;
   match Re.search Pat.metrics page0 with
   | None => Raise AttributeError
   | Some data =>
       g1 <- match Re.group 1 data with
             | Some g => Ok g | None => Raise TypeError end ;;
       adults_total_vaccinations <- clean_count g1 ;;
       g2 <- match Re.group 2 data with
             | Some g => Ok g | None => Raise TypeError end ;;
       adults_partially_vaccinated <- clean_count g2 ;;
       g3 <- match Re.group 3 data with
             | Some g => Ok g | None => Raise TypeError end ;;
       people_fully_vaccinated <- clean_count g3 ;;
       t <- search_group Pat.teen 1 page0 ;;
       teenagers_first_doses <- clean_count t ;;
       let total_vaccinations :=
         (adults_total_vaccinations + teenagers_first_doses)%Z in
       jj <- _extract_jj_doses pages ;;
       let people_vaccinated :=
         (adults_partially_vaccinated + jj + teenagers_first_doses)%Z in
       Ok (total_vaccinations, people_vaccinated, people_fully_vaccinated)
   end)%res.

Definition read (w : world) : IO.io Series.t :=
  (url_pdf <- _parse_pdf_link w source_url ;;
   pages <- _get_text_from_pdf w url_pdf ;;
   m <- IO.lift (_parse_metrics pages) ;;
   let '(total_vaccinations, people_vaccinated, people_fully_vaccinated)
     := m in
   page0 <- IO.lift (first_page pages) ;;
   date <- IO.lift (_parse_date page0) ;;
   IO.ret [("total_vaccinations", Series.VInt total_vaccinations);
           ("people_vaccinated", Series.VInt people_vaccinated);
           ("people_fully_vaccinated",
             Series.VInt people_fully_vaccinated);
           ("date", Series.VStr date);
           ("source_url", Series.VStr url_pdf)])%io.

Definition pipe_location (ds : Series.t) : Series.t :=
  enrich_data ds "location" location.

Definition pipe_vaccine (ds : Series.t) : Series.t :=
  enrich_data ds "vaccine" "Oxford/AstraZeneca, Sputnik V".

Definition pipeline (ds : Series.t) : Series.t :=
  pipe_vaccine (pipe_location ds).

Definition to_csv (w : world) : IO.io unit :=
  (ds <- read w ;;
   let data := pipeline ds in
   a1 <- IO.lift (Series.getitem "location" data) ;;
   a2 <- IO.lift (Series.getitem "total_vaccinations" data) ;;
   a3 <- IO.lift (Series.getitem "people_vaccinated" data) ;;
   a4 <- IO.lift (Series.getitem "people_fully_vaccinated" data) ;;
   a5 <- IO.lift (Series.getitem "date" data) ;;
   a6 <- IO.lift (Series.getitem "source_url" data) ;;
   a7 <- IO.lift (Series.getitem "vaccine" data) ;;
   IO.emit (EvIncrement a1 a2 a3 a4 a5 a6 a7))%io.

(** [main] *)
Definition main (w : world) : result unit * trace := to_csv w [].

End Kenya.

(** ** Sample runs *)

Definition sample_metrics : string :=
  "total doses administered above 18 years 1,000,000 total partially vaccinated above 18 years 900,000 total fully vaccinated above 18 yrs 800,000".


Definition sample_teen : string :=
  "15-18 yrs received first dose (pfizer vaccine) 12,345".

Definition sample_header : string :=
  "priority group johnson & johnson dose 2 uptake total fully vaccinated (j&j + dose 2 uptake) partially vaccinated (dose 1 uptake) % dose 2 uptake".

(** The same header with one word changed ("intake" for the last
    "uptake"). *)
Definition sample_header_drifted : string :=
  "priority group johnson & johnson dose 2 uptake total fully vaccinated (j&j + dose 2 uptake) partially vaccinated (dose 1 uptake) % dose 2 intake".

Definition sample_total_row (jj : string) : string :=
  "total " ++ jj ++ " 300,000 350,000 100,000 75.5% table 5 shows percentage of clients".

Definition sample_table5 (header jj : string) : string :=
  Pat.table5_marker ++ " " ++ header ++ " health workers 1 2 3 4 5% "
    ++ sample_total_row jj.

Definition sample_date_phrase : string :=
  "vaccine doses dispensed as at friday 14th january 2022".

Definition sample_page0 : string :=
  "ministry of health " ++ sample_date_phrase ++ " " ++ sample_metrics
    ++ " " ++ sample_teen ++ " end".

Definition sample_pages : list string :=
  [sample_page0; "page two"; sample_table5 sample_header "50,000"].

Definition sample_pdf_url : string :=
  "https://www.health.go.ke/wp-content/uploads/2022/01/MINISTRY-OF-HEALTH-KENYA-COVID-19-IMMUNIZATION-STATUS-REPORT-14TH-JANUARY-2022.pdf".

Definition sample_soup : soup :=
  [Anchor None;
   Anchor (Some "https://www.health.go.ke/immunization-status-report.pdf");
   Anchor (Some "https://www.health.go.ke/press-releases/");
   Anchor (Some sample_pdf_url);
   Anchor (Some "https://www.health.go.ke/OLD-IMMUNIZATION-REPORT.pdf")].

Definition sample_world : world :=
  World (fun url => if String.eqb url Kenya.source_url
                    then Ok sample_soup else Raise IOError)
        (fun url => if String.eqb url sample_pdf_url
                    then Ok sample_pages else Raise IOError).

(** ** The claims' own words, as definitions *)

Module Spec.

(** "the lowercased form of the raw text with every run of whitespace
    collapsed to a single space" *)
Definition normalized (raw : string) : string :=
  Str.lower (Str.collapse raw false).

(** The reading that holds: line feeds deleted first, whitespace at both
    ends dropped, the runs in between collapsed, all in lower case. *)
Definition normalized_stripped (raw : string) : string :=
  Str.lower (Str.strip (Str.collapse (Str.remove_newlines raw) false)).

Definition has_marker (page : string) : bool :=
  Str.contains Pat.table5_marker page.

(** The last page that holds the table-5 marker. *)
Fixpoint last_marker_page (pages : list string) : option string :=
  match pages with
  | [] => None
  | page :: rest =>
      match last_marker_page rest with
      | Some p => Some p
      | None => if has_marker page then Some page else None
      end
  end.

(** A marker page is readable when both the header pattern and the
    total-row pattern are found on it. *)
Definition readable (page : string) : bool :=
  match Re.search Pat.rex_header page, Re.search Pat.rex_jj page with
  | Some _, Some _ => true
  | _, _ => false
  end.

Definition marker_pages_readable (pages : list string) : bool :=
  forallb (fun page => negb (has_marker page) || readable page) pages.

End Spec.

(** ** Shapes of texts and runs *)

Module Shape.

(** A word of [str.split()]: not empty, no whitespace in it. *)
Definition word (w : string) : bool :=
  match w with
  | EmptyString => false
  | String _ _ => Str.all (fun c => negb (Chr.is_space c)) w
  end.

(** Not whitespace, or the plain space. *)
Definition plain_space (c : ascii) : bool :=
  negb (Chr.is_space c) || Ascii.eqb c " ".

(** Not one of A-Z. *)
Definition no_capital (c : ascii) : bool := negb (Chr.between 65 90 c).

(** A figure or word as a class repetition [[..]+] reads it: not empty,
    every character in the class. *)
Definition run_of (p : ascii -> bool) (w : string) : bool :=
  match w with
  | EmptyString => false
  | String _ _ => Str.all p w
  end.

(** The text that follows does not go on with a character of the
    class. *)
Definition stops (p : ascii -> bool) (rest : string) : bool :=
  match rest with
  | EmptyString => true
  | String c _ => negb (p c)
  end.

(** The spellings [ye?a?rs] stands for. *)
Definition spelled_years (y : string) : bool :=
  existsb (String.eqb y) ["yrs"; "yers"; "yars"; "years"].

(** An address the link pattern is found in: the word in capitals, then
    no line feed up to "pdf" at the end, or in front of one last line
    feed. *)
Definition report_link (h : string) : Prop :=
  exists pre mid e,
    h = pre ++ "IMMUNIZATION" ++ mid ++ "pdf" ++ e /\
    Str.all Chr.is_dot mid = true /\
    (e = EmptyString \/ e = String Chr.newline EmptyString).

Definition metrics_anchor : string := "total doses administered above 18 ".

(** The three figures of the bulletin with their labels, followed by
    [tail]. *)
Definition metrics_text (y1 n1 y2 n2 n3 tail : string) : string :=
  metrics_anchor ++ y1 ++ " " ++ n1
    ++ " total partially vaccinated above 18 " ++ y2 ++ " " ++ n2
    ++ " total fully vaccinated above 18 yrs " ++ n3 ++ tail.

Definition teen_anchor : string :=
  "15-18 yrs received first dose (pfizer vaccine) ".

Definition teen_text (n tail : string) : string := teen_anchor ++ n ++ tail.

(** The date line: weekday, day, an optional comma, month and a year of
    the 2020s, followed by [tail]; and the part of it that is the date. *)
Definition date_phrase (d comma mon : string) (y : ascii) : string :=
  d ++ comma ++ " " ++ mon ++ " 202" ++ String y EmptyString.

Definition date_text (wd d comma mon : string) (y : ascii) (tail : string)
  : string :=
  Pat.date_anchor ++ wd ++ " " ++ d ++ comma ++ " " ++ mon ++ " 202"
    ++ String y tail.

(** The total row of table 5 with the words that follow it. *)
Definition total_row (jj b c d e : string) : string :=
  "total " ++ jj ++ " " ++ b ++ " " ++ c ++ " " ++ d ++ " " ++ e
    ++ "% table 5 shows percentage of clients".

(** The call of [increment] at the end of [to_csv]. *)
Definition row_event (url : string) (tv pv pf : Z) (date : string) : event :=
  EvIncrement
    (Series.Scalar (Series.VStr "Kenya"))
    (Series.Scalar (Series.VInt tv))
    (Series.Scalar (Series.VInt pv))
    (Series.Scalar (Series.VInt pf))
    (Series.Scalar (Series.VStr date))
    (Series.Scalar (Series.VStr url))
    (Series.Scalar (Series.VStr "Oxford/AstraZeneca, Sputnik V")).

End Shape.

(** * Facts *)

(** ** Strings *)

Module StrFacts.

Lemma app_assoc (a b c : string) : (a ++ b) ++ c = a ++ (b ++ c).
Proof. induction a as [|x a IH]; simpl; [reflexivity | now rewrite IH]. Qed.

Lemma app_nil_r (a : string) : a ++ "" = a.
Proof. induction a as [|x a IH]; simpl; [reflexivity | now rewrite IH]. Qed.

Lemma starts_with_app (p s : string) : Str.starts_with p (p ++ s) = true.
Proof.
  induction p as [|x p IH]; simpl; [reflexivity |].
  now rewrite Ascii.eqb_refl, IH.
Qed.

Lemma starts_with_inv (p s : string) :
  Str.starts_with p s = true -> exists rest, s = p ++ rest.
Proof.
  revert s; induction p as [|x p IH]; intros s H.
  - now exists s.
  - destruct s as [|y s]; simpl in H; [discriminate |].
    apply andb_true_iff in H as [Hxy Hp].
    apply Ascii.eqb_eq in Hxy; subst y.
    destruct (IH _ Hp) as [rest ->]. now exists rest.
Qed.

Lemma contains_here (n s : string) :
  Str.starts_with n s = true -> Str.contains n s = true.
Proof. intros H; destruct s; simpl; now rewrite H. Qed.

Lemma contains_app (n a b : string) : Str.contains n (a ++ n ++ b) = true.
Proof.
  induction a as [|x a IH]; simpl.
  - apply contains_here, starts_with_app.
  - rewrite IH. apply orb_true_r.
Qed.

Lemma contains_inv (n s : string) :
  Str.contains n s = true -> exists a b, s = a ++ n ++ b.
Proof.
  induction s as [|x s IH]; simpl; intros H.
  - rewrite orb_false_r in H. apply starts_with_inv in H as [rest ->].
    now exists "", rest.
  - apply orb_true_iff in H as [H | H].
    + apply starts_with_inv in H as [rest ->]. now exists "", rest.
    + destruct (IH H) as (a & b & ->). now exists (String x a), b.
Qed.

End StrFacts.

(** ** The matcher returns matches only *)

Module ReFacts.
Import Re.

Section Sound.
Context {R : Type}.

Lemma star_sound (p : ascii -> bool) (s : string)
      (k : string -> string -> option R) (x : R) :
  star p s k = Some x ->
  exists w rest, s = w ++ rest /\ Str.all p w = true /\ k w rest = Some x.
Proof.
  revert k; induction s as [|c s IH]; intros k H; simpl in H.
  - now exists "", "".
  - destruct (p c) eqn:Hc.
    + unfold orelse in H.
      destruct (star p s _) eqn:E.
      * injection H as ->.
        destruct (IH _ E) as (w & rest & -> & Hw & Hk).
        exists (String c w), rest; simpl. now rewrite Hc, Hw.
      * now exists "", (String c s).
    + now exists "", (String c s).
Qed.

Lemma run_sound (r : regex) :
  forall (s : string) (g : captures) (k : cont) (x : R),
    run r s g k = Some x ->
    exists w rest g',
      s = w ++ rest /\ matches r g w rest g' /\ k w rest g' = Some x.
Proof.
  induction r as [ | c | p | r1 IH1 r2 IH2 | r IH | p | n r IH | ];
    intros s g k x H; simpl in H.
  - exists "", s, g. repeat split; [constructor | assumption].
  - destruct s as [|c' s]; [discriminate |].
    destruct (Ascii.eqb c c') eqn:E; [| discriminate].
    apply Ascii.eqb_eq in E; subst c'.
    exists (String c ""), s, g. repeat split; [constructor | assumption].
  - destruct s as [|c' s]; [discriminate |].
    destruct (p c') eqn:E; [| discriminate].
    exists (String c' ""), s, g.
    repeat split; [now constructor | assumption].
  - destruct (IH1 _ _ _ _ H) as (w1 & s1 & g1 & -> & M1 & H1).
    destruct (IH2 _ _ _ _ H1) as (w2 & s2 & g2 & -> & M2 & H2).
    exists (w1 ++ w2), s2, g2. split; [| split].
    + now rewrite StrFacts.app_assoc.
    + econstructor; eassumption.
    + assumption.
  - unfold orelse in H. destruct (run r s g k) eqn:E.
    + injection H as ->.
      destruct (IH _ _ _ _ E) as (w & rest & g' & -> & M & Hk).
      exists w, rest, g'. repeat split; [now apply M_OptSome | assumption].
    + exists "", s, g. repeat split; [apply M_OptNone | assumption].
  - destruct (star_sound _ _ _ _ H) as (w & rest & -> & Hw & Hk).
    exists w, rest, g. repeat split; [now constructor | assumption].
  - destruct (IH _ _ _ _ H) as (w & rest & g' & -> & M & Hk).
    exists w, rest, ((n, w) :: g').
    repeat split; [now constructor | assumption].
  - destruct s as [|c [|c' s]]; try discriminate.
    + exists "", "", g. repeat split; [constructor; now left | assumption].
    + destruct (Ascii.eqb c Chr.newline) eqn:E; [| discriminate].
      apply Ascii.eqb_eq in E; subst c.
      exists "", (String Chr.newline ""), g.
      repeat split; [constructor; now right | assumption].
Qed.
End Sound.

Lemma match_here_sound (r : regex) (s : string) (m : match_obj) :
  match_here r s = Some m ->
  exists rest, s = whole m ++ rest /\ matches r [] (whole m) rest (groups m).
Proof.
  unfold match_here; intros H.
  destruct (run_sound _ _ _ _ _ H) as (w & rest & g' & -> & M & Hk).
  injection Hk as <-. now exists rest.
Qed.

Lemma search_sound (r : regex) (s : string) (m : match_obj) :
  search r s = Some m ->
  exists pre rest,
    s = pre ++ whole m ++ rest /\ matches r [] (whole m) rest (groups m).
Proof.
  induction s as [|c s IH]; simpl; intros H.
  - destruct (match_here r "") eqn:E; [| discriminate].
    injection H as ->.
    destruct (match_here_sound _ _ _ E) as (rest & Hs & M).
    now exists "", rest.
  - destruct (match_here r (String c s)) eqn:E.
    + injection H as ->.
      destruct (match_here_sound _ _ _ E) as (rest & Hs & M).
      now exists "", rest.
    + destruct (IH H) as (pre & rest & -> & M).
      now exists (String c pre), rest.
Qed.

(** Inversion of the pieces the patterns are made of. *)

Lemma matches_Lit (l : string) g w rest g' :
  matches (Lit l) g w rest g' -> w = l /\ g' = g.
Proof.
  revert g w rest g'; induction l as [|c l IH]; intros g w rest g' M;
    simpl in M.
  - inversion M; subst. now split.
  - inversion M as [ | | | r1 r2 g0 g1 g2 w1 w2 rest0 M1 M2 | | | | | ];
      subst.
    inversion M1; subst.
    destruct (IH _ _ _ _ M2) as [-> ->]. now split.
Qed.

Lemma matches_Seq r1 r2 g w rest g' :
  matches (Seq r1 r2) g w rest g' ->
  exists w1 w2 g1,
    w = w1 ++ w2 /\ matches r1 g w1 (w2 ++ rest) g1 /\
    matches r2 g1 w2 rest g'.
Proof.
  intros M; inversion M; subst.
  eexists _, _, _. repeat split; eassumption.
Qed.

Lemma matches_Plus p g w rest g' :
  matches (Plus p) g w rest g' ->
  g' = g /\ Str.all p w = true /\ w <> "".
Proof.
  intros M. apply matches_Seq in M as (w1 & w2 & g1 & -> & M1 & M2).
  inversion M1; subst. inversion M2; subst.
  simpl. repeat split; [| discriminate].
  now apply andb_true_iff.
Qed.

Lemma matches_Grp n r g w rest g' :
  matches (Grp n r) g w rest g' ->
  exists g1, g' = (n, w) :: g1 /\ matches r g w rest g1.
Proof.
  intros M; inversion M; subst. eexists; split; [reflexivity | eassumption].
Qed.

End ReFacts.

(** ** Groups that always take part *)

Module GroupFacts.
Import Re.

Lemma matches_keys r g w rest g' :
  matches r g w rest g' ->
  forall n, In n (List.map fst g) \/ In n (sure_groups r) ->
            In n (List.map fst g').
Proof.
  induction 1 as [ g rest | c g rest | p c g rest Hp
                 | r1 r2 g g1 g2 w1 w2 rest M1 IH1 M2 IH2
                 | r g g' w rest M IH | r g rest | p g w rest Hw
                 | k r g g' w rest M IH | g rest Hr ];
    intros n Hn; simpl in *;
    try (destruct Hn as [Hn | []]; exact Hn).
  - apply IH2. destruct Hn as [Hn | Hn].
    + left. apply IH1. now left.
    + apply in_app_or in Hn as [Hn | Hn].
      * left. apply IH1. now right.
      * now right.
  - apply IH. left. now destruct Hn as [Hn | []].
  - destruct Hn as [Hn | [Hn | Hn]].
    + right. apply IH. now left.
    + now left.
    + right. apply IH. now right.
Qed.

Lemma assoc_bound n (g : captures) :
  In n (List.map fst g) -> exists w, assoc n g = Some w.
Proof.
  induction g as [|[m w] g IH]; simpl; intros H; [contradiction |].
  destruct (Nat.eqb n m) eqn:E; [now exists w |].
  destruct H as [H | H]; [| now apply IH].
  subst m. now rewrite Nat.eqb_refl in E.
Qed.

(** After a successful search every sure group of the pattern holds a
    text: [m.group(n)] is not None. *)
Lemma group_bound r s m n :
  search r s = Some m -> In n (sure_groups r) ->
  exists w, group n m = Some w.
Proof.
  intros H Hn.
  destruct (ReFacts.search_sound _ _ _ H) as (pre & rest & _ & M).
  apply assoc_bound. eapply matches_keys; [exact M | now right].
Qed.

Lemma search_group_ok r n s m :
  search r s = Some m -> In n (sure_groups r) ->
  exists w, group n m = Some w /\ search_group r n s = Ok w.
Proof.
  intros H Hn. destruct (group_bound _ _ _ _ H Hn) as [w Hw].
  exists w. split; [assumption |].
  unfold search_group. now rewrite H, Hw.
Qed.

End GroupFacts.

(** ** Counters of page one *)

(** When both patterns of [_parse_metrics] match, all four groups hold a
    text: the calls of [clean_count] are never handed None. *)
Lemma parse_metrics_groups page0 data teen :
  Re.search Pat.metrics page0 = Some data ->
  Re.search Pat.teen page0 = Some teen ->
  exists g1 g2 g3 t,
    Re.group 1 data = Some g1 /\ Re.group 2 data = Some g2 /\
    Re.group 3 data = Some g3 /\ Re.group 1 teen = Some t.
Proof.
  intros Hm Ht.
  destruct (GroupFacts.group_bound _ _ _ 1 Hm) as [g1 H1];
    [vm_compute; tauto |].
  destruct (GroupFacts.group_bound _ _ _ 2 Hm) as [g2 H2];
    [vm_compute; tauto |].
  destruct (GroupFacts.group_bound _ _ _ 3 Hm) as [g3 H3];
    [vm_compute; tauto |].
  destruct (GroupFacts.group_bound _ _ _ 1 Ht) as [t H4];
    [vm_compute; tauto |].
  now exists g1, g2, g3, t.
Qed.


(** C1: when both patterns match page one, their groups clean to
    counters and the J&J doses are found, [_parse_metrics] returns
    adults_total + teens, adults_partial + jj + teens and the third
    counter as it stands. *)
Theorem C1_parse_metrics_totals
        (pages : list string) (page0 : string) (data teen_m : Re.match_obj)
        (g1 g2 g3 t : string) (adults_total adults_partial fully teens jj : Z) :
  first_page pages = Ok page0 ->
  Re.search Pat.metrics page0 = Some data ->
  Re.search Pat.teen page0 = Some teen_m ->
  Re.group 1 data = Some g1 -> clean_count g1 = Ok adults_total ->
  Re.group 2 data = Some g2 -> clean_count g2 = Ok adults_partial ->
  Re.group 3 data = Some g3 -> clean_count g3 = Ok fully ->
  Re.group 1 teen_m = Some t -> clean_count t = Ok teens ->
  Kenya._extract_jj_doses pages = Ok jj ->
  Kenya._parse_metrics pages =
    Ok ((adults_total + teens)%Z, (adults_partial + jj + teens)%Z, fully).
Proof.
  intros Hp Hm Ht H1 C1 H2 C2 H3 C3 H4 C4 Hjj.
  unfold Kenya._parse_metrics, search_group.
  rewrite Hp; simpl. rewrite Hm, H1; simpl. rewrite C1; simpl.
  rewrite H2; simpl. rewrite C2; simpl. rewrite H3; simpl.
  rewrite C3; simpl. rewrite Ht, H4; simpl. rewrite C4; simpl.
  rewrite Hjj; simpl. reflexivity.
Qed.

Lemma C1_parse_metrics_totals_witness :
  Kenya._parse_metrics sample_pages =
    Ok ((1000000 + 12345)%Z, (900000 + 50000 + 12345)%Z, 800000%Z).
Proof.
  apply (C1_parse_metrics_totals sample_pages sample_page0
           (Re.MkMatch sample_metrics
              [(3, "800,000"); (2, "900,000"); (1, "1,000,000")])
           (Re.MkMatch sample_teen [(1, "12,345")])
           "1,000,000" "900,000" "800,000" "12,345");
    vm_compute; reflexivity.
Defined.

(** ** Row enrichment *)

Module SeriesFacts.
Import Series.

Lemma at_label_app k (a b : t) :
  at_label k (a ++ b)%list = (at_label k a ++ at_label k b)%list.
Proof.
  induction a as [|[k' v] a IH]; simpl; [reflexivity |].
  destruct (String.eqb k k'); simpl; now rewrite IH.
Qed.

(** Entries appended under other labels leave [ds[k]] as it was. *)
Lemma getitem_app_other k (ds extra : t) :
  at_label k extra = [] -> getitem k (ds ++ extra)%list = getitem k ds.
Proof.
  intros H. unfold getitem. now rewrite at_label_app, H, app_nil_r.
Qed.

End SeriesFacts.

(** C9: [pipeline] returns the row it was given followed by the two
    entries location = "Kenya" and vaccine = "Oxford/AstraZeneca,
    Sputnik V"; reading any of the five fields of the parsed row gives
    what it gave before. *)
Theorem C9_pipeline_only_adds (ds : Series.t) :
  Kenya.pipeline ds =
    (ds ++ [("location", Series.VStr "Kenya");
            ("vaccine", Series.VStr "Oxford/AstraZeneca, Sputnik V")])%list
  /\ Series.getitem "total_vaccinations" (Kenya.pipeline ds)
     = Series.getitem "total_vaccinations" ds
  /\ Series.getitem "people_vaccinated" (Kenya.pipeline ds)
     = Series.getitem "people_vaccinated" ds
  /\ Series.getitem "people_fully_vaccinated" (Kenya.pipeline ds)
     = Series.getitem "people_fully_vaccinated" ds
  /\ Series.getitem "date" (Kenya.pipeline ds) = Series.getitem "date" ds
  /\ Series.getitem "source_url" (Kenya.pipeline ds)
     = Series.getitem "source_url" ds.
Proof.
  assert (E : Kenya.pipeline ds =
    (ds ++ [("location", Series.VStr "Kenya");
            ("vaccine", Series.VStr "Oxford/AstraZeneca, Sputnik V")])%list).
  { unfold Kenya.pipeline, Kenya.pipe_vaccine, Kenya.pipe_location,
      enrich_data, Kenya.location.
    now rewrite <- List.app_assoc. }
  split; [exact E |].
  rewrite E.
  repeat split; apply SeriesFacts.getitem_app_other; reflexivity.
Qed.

(** ** Page text *)

Module SplitFacts.
Import Str.

Definition nonempty (w : string) : Prop := w <> EmptyString.

Lemma push_word_nonempty w ws :
  Forall nonempty ws -> Forall nonempty (push_word w ws).
Proof.
  intros H; destruct w; simpl; [assumption |].
  constructor; [discriminate | assumption].
Qed.

Lemma split_go_nonempty s :
  Forall nonempty (snd (split_go s)).
Proof.
  induction s as [|c s IH]; simpl; [constructor |].
  destruct (split_go s) as [w ws]; simpl in IH.
  destruct (Chr.is_space c); simpl; [| assumption].
  now apply push_word_nonempty.
Qed.

Lemma join_cons sep w ws :
  join sep (w :: ws) =
    match ws with
    | [] => w
    | _ :: _ => w ++ sep ++ join sep ws
    end.
Proof. destruct ws; reflexivity. Qed.

Lemma join_empty sep ws :
  Forall nonempty ws -> join sep ws = EmptyString -> ws = [].
Proof.
  intros H E. destruct ws as [|w ws]; [reflexivity |].
  inversion H as [|? ? Hw _]; subst.
  rewrite join_cons in E.
  destruct w; [now elim Hw |].
  destruct ws; discriminate.
Qed.

(** A collapsed text read after whitespace does not start with a
    space; read from its start it starts with at most one. *)
Lemma lstrip_collapse_true s :
  lstrip (collapse s true) = collapse s true.
Proof.
  induction s as [|c s IH]; simpl; [reflexivity |].
  destruct (Chr.is_space c) eqn:E; [assumption |].
  simpl. now rewrite E.
Qed.

Lemma lstrip_collapse s :
  lstrip (collapse s false) = collapse s true.
Proof.
  destruct s as [|c s]; simpl; [reflexivity |].
  destruct (Chr.is_space c) eqn:E; simpl.
  - apply lstrip_collapse_true.
  - now rewrite E.
Qed.

Lemma rstrip_cons_word c s :
  Chr.is_space c = false ->
  rstrip (String c s) = String c (rstrip s).
Proof. intros E; simpl. destruct (rstrip s); [now rewrite E | reflexivity]. Qed.

Lemma rstrip_cons_space c s :
  Chr.is_space c = true ->
  rstrip (String c s) =
    match rstrip s with
    | EmptyString => EmptyString
    | String _ _ as r => String c r
    end.
Proof. intros E; simpl. destruct (rstrip s); [now rewrite E | reflexivity]. Qed.

(** The words joined by single spaces are the collapsed text without
    the whitespace at its ends. *)
Lemma join_split_collapse s :
  rstrip (collapse s true) = join " " (split s) /\
  rstrip (collapse s false) =
    match s with
    | EmptyString => EmptyString
    | String c _ =>
        if Chr.is_space c
        then match join " " (split s) with
             | EmptyString => EmptyString
             | String _ _ as r => String " " r
             end
        else join " " (split s)
    end.
Proof.
  induction s as [|c s [IHt IHf]]; [split; reflexivity |].
  pose proof (split_go_nonempty s) as Hne.
  unfold split in *. simpl split_go.
  destruct (split_go s) as [w ws] eqn:G; simpl in Hne.
  simpl collapse.
  destruct (Chr.is_space c) eqn:E.
  - (* a space: the open word is closed *)
    assert (P : push_word "" (push_word w ws) = push_word w ws)
      by reflexivity.
    rewrite P. split; [exact IHt |].
    rewrite rstrip_cons_space by reflexivity.
    now rewrite IHt.
  - (* a letter: it goes in front of the open word *)
    assert (K : rstrip (String c (collapse s false))
                = join " " (push_word (String c w) ws)).
    { rewrite rstrip_cons_word by assumption.
      rewrite IHf. simpl push_word. rewrite join_cons.
      destruct s as [|c' s']; simpl in G.
      - injection G as <- <-. reflexivity.
      - destruct (split_go s') as [w' ws'] eqn:G'.
        destruct (Chr.is_space c') eqn:E'.
        + injection G as <- <-. simpl push_word at 1.
          destruct (join " " (push_word w' ws')) eqn:J.
          * apply join_empty in J; [| assumption]. now rewrite J.
          * destruct (push_word w' ws') eqn:Pw; [discriminate |].
            rewrite <- J. reflexivity.
        + injection G as <- <-. simpl push_word.
          rewrite join_cons. destruct ws'; reflexivity. }
    split; exact K.
Qed.

Lemma join_split s :
  join " " (split s) = strip (collapse s false).
Proof.
  unfold strip. rewrite lstrip_collapse.
  symmetry. apply join_split_collapse.
Qed.

End SplitFacts.

(** C5, as the claim has it, fails on a text with a line feed between
    two letters: the script deletes the line feed and joins the
    letters. *)
Lemma C5_counterexample :
  let raw := "a" ++ String Chr.newline "b" in
  Spec.normalized raw = "a b" /\ Kenya._extract_pdf_text raw = "ab" /\
  Kenya._extract_pdf_text raw <> Spec.normalized raw.
Proof.
  split; [| split]; vm_compute; [reflexivity | reflexivity | discriminate].
Qed.

(** Whitespace at the ends of the text is dropped as well, not
    collapsed to one space. *)
Example extract_pdf_text_strips :
  Spec.normalized " a  b " = " a b " /\
  Kenya._extract_pdf_text " a  b " = "a b".
Proof. split; vm_compute; reflexivity. Qed.

(** C5 (amended): the page text is the raw text with its line feeds
    deleted, the whitespace at both ends dropped, every run of
    whitespace in between collapsed to one space, in lower case. *)
Theorem C5_extract_pdf_text (raw : string) :
  Kenya._extract_pdf_text raw = Spec.normalized_stripped raw.
Proof.
  unfold Kenya._extract_pdf_text, Spec.normalized_stripped.
  now rewrite SplitFacts.join_split.
Qed.

(** ** The scan for table 5 *)

Module ScanFacts.

Lemma readable_inv page :
  Spec.readable page = true ->
  exists h d, Re.search Pat.rex_header page = Some h /\
              search_group Pat.rex_jj 1 page = Ok d.
Proof.
  unfold Spec.readable; intros H.
  destruct (Re.search Pat.rex_header page) as [h|] eqn:Eh;
    [| discriminate].
  destruct (Re.search Pat.rex_jj page) as [m|] eqn:Ej; [| discriminate].
  destruct (GroupFacts.search_group_ok Pat.rex_jj 1 page m Ej)
    as (d & _ & Hd); [vm_compute; tauto |].
  now exists h, d.
Qed.

(** One turn of the loop. *)
Lemma jj_loop_skip page rest acc :
  Spec.has_marker page = false ->
  Kenya.jj_loop (page :: rest) acc = Kenya.jj_loop rest acc.
Proof. unfold Spec.has_marker; intros H; simpl. now rewrite H. Qed.

Lemma jj_loop_read page rest acc :
  Spec.has_marker page = true -> Spec.readable page = true ->
  exists d, search_group Pat.rex_jj 1 page = Ok d /\
            Kenya.jj_loop (page :: rest) acc = Kenya.jj_loop rest (Some d).
Proof.
  unfold Spec.has_marker; intros Hm Hr.
  destruct (readable_inv _ Hr) as (h & d & Hh & Hd).
  exists d. split; [assumption |].
  simpl. now rewrite Hm, Hh, Hd.
Qed.


Lemma readable_cons page rest :
  Spec.marker_pages_readable (page :: rest) = true ->
  (Spec.has_marker page = false \/
   (Spec.has_marker page = true /\ Spec.readable page = true)) /\
  Spec.marker_pages_readable rest = true.
Proof.
  unfold Spec.marker_pages_readable; simpl; intros H.
  apply andb_true_iff in H as [H1 H2]. split; [| assumption].
  destruct (Spec.has_marker page); simpl in H1; [right | left]; tauto.
Qed.


(** When every marker page is readable the loop ends with the figure
    of the last of them, or with the variable as it was. *)
Lemma jj_loop_last pages acc :
  Spec.marker_pages_readable pages = true ->
  match Spec.last_marker_page pages with
  | None => Kenya.jj_loop pages acc = Ok acc
  | Some page =>
      exists d, search_group Pat.rex_jj 1 page = Ok d /\
                Kenya.jj_loop pages acc = Ok (Some d)
  end.
Proof.
  revert acc; induction pages as [|q pages IH]; intros acc H;
    [reflexivity |].
  apply readable_cons in H as [[Hq | [Hq Hr]] Hrest];
    cbn [Spec.last_marker_page].
  - rewrite jj_loop_skip by assumption. rewrite Hq.
    specialize (IH acc Hrest).
    destruct (Spec.last_marker_page pages); assumption.
  - destruct (jj_loop_read q pages acc Hq Hr) as (d & Hd & ->).
    rewrite Hq. specialize (IH (Some d) Hrest).
    destruct (Spec.last_marker_page pages); [assumption |].
    now exists d.
Qed.

Lemma no_marker pages :
  (forall page, In page pages -> Spec.has_marker page = false) ->
  Spec.marker_pages_readable pages = true /\
  Spec.last_marker_page pages = None.
Proof.
  induction pages as [|q pages IH]; intros H; [now split |].
  destruct IH as [IH1 IH2]; [intros p Hp; apply H; now right |].
  unfold Spec.marker_pages_readable in *; simpl.
  rewrite IH1, IH2, (H q) by now left. now split.
Qed.

End ScanFacts.




(** C4: when every page that holds the marker is readable,
    [_extract_jj_doses] raises UnboundLocalError if no page holds the
    marker, and otherwise returns the cleaned figure of the last page
    that holds it. *)
Theorem C4_zero_or_many_marker_pages (pages : list string) :
  Spec.marker_pages_readable pages = true ->
  Kenya._extract_jj_doses pages =
    match Spec.last_marker_page pages with
    | None => Raise UnboundLocalError
    | Some page =>
        (d <- search_group Pat.rex_jj 1 page ;; clean_count d)%res
    end.
Proof.
  intros H. unfold Kenya._extract_jj_doses.
  pose proof (ScanFacts.jj_loop_last pages None H) as L.
  destruct (Spec.last_marker_page pages) as [page|].
  - destruct L as (d & Hd & ->). now rewrite Hd.
  - now rewrite L.
Qed.

Lemma C4_zero_or_many_marker_pages_witness :
  Kenya._extract_jj_doses ["page one"; "page two"] = Raise UnboundLocalError
  /\ Kenya._extract_jj_doses
       [sample_table5 sample_header "50,000"; "page two";
        sample_table5 sample_header "61,234"; "page four"]
     = Ok 61234%Z.
Proof.
  split.
  - apply (C4_zero_or_many_marker_pages ["page one"; "page two"]).
    vm_compute; reflexivity.
  - apply (C4_zero_or_many_marker_pages
             [sample_table5 sample_header "50,000"; "page two";
              sample_table5 sample_header "61,234"; "page four"]).
    vm_compute; reflexivity.
Defined.

(** No page with the marker: the variable is read unbound. *)
Lemma extract_jj_no_marker pages :
  (forall page, In page pages -> Spec.has_marker page = false) ->
  Kenya._extract_jj_doses pages = Raise UnboundLocalError.
Proof.
  intros H. destruct (ScanFacts.no_marker pages H) as [Hr Hl].
  unfold Kenya._extract_jj_doses.
  pose proof (ScanFacts.jj_loop_last pages None Hr) as L.
  rewrite Hl in L. now rewrite L.
Qed.

(** ** The date of the bulletin *)

Module DateFacts.

Lemma search_unfold r s :
  Re.search r s =
    match Re.match_here r s with
    | Some m => Some m
    | None => match s with
              | EmptyString => None
              | String _ s' => Re.search r s'
              end
    end.
Proof. destruct s; reflexivity. Qed.

Lemma find_cons n c s :
  Str.find n (String c s) =
    if Str.starts_with n (String c s) then Some 0
    else option_map S (Str.find n s).
Proof. reflexivity. Qed.

(** The date pattern starts with fixed words: where they do not
    stand, it does not match. *)
Lemma no_anchor_no_match s :
  Str.starts_with Pat.date_anchor s = false ->
  Re.match_here Pat.date s = None.
Proof.
  intros H. destruct (Re.match_here Pat.date s) as [m|] eqn:E;
    [| reflexivity].
  destruct (ReFacts.match_here_sound _ _ _ E) as (rest & Hs & M).
  unfold Pat.date in M.
  apply ReFacts.matches_Seq in M as (w1 & w2 & g1 & Hw & M1 & _).
  apply ReFacts.matches_Lit in M1 as [-> _].
  rewrite Hs, Hw, StrFacts.app_assoc, StrFacts.starts_with_app in H.
  discriminate.
Qed.

Lemma parse_date_skip c s :
  Str.starts_with Pat.date_anchor (String c s) = false ->
  Kenya._parse_date (String c s) = Kenya._parse_date s.
Proof.
  intros H. unfold Kenya._parse_date, search_group.
  rewrite (search_unfold Pat.date (String c s)).
  now rewrite (no_anchor_no_match _ H).
Qed.

End DateFacts.

(** C3, as the claim has it, fails: with the comma after the weekday
    the date pattern finds nothing, since after the weekday it expects a
    space. *)
Lemma C3_counterexample :
  let text :=
    "ministry of health vaccine doses dispensed as at friday, 14th january 2022 total" in
  Str.contains "vaccine doses dispensed as at friday, 14th january 2022" text
    = true
  /\ Re.search Pat.date text = None
  /\ Kenya._parse_date text = Raise AttributeError
  /\ Kenya._parse_date text <> Ok "2022-01-14".
Proof.
  split; [| split; [| split]]; vm_compute; try reflexivity. discriminate.
Qed.

(** The search takes the first place where the pattern matches: a date
    phrase in front is the one that is read. *)
Example parse_date_first_phrase :
  Kenya._parse_date
    "vaccine doses dispensed as at monday 3rd january 2022 and vaccine doses dispensed as at friday 14th january 2022"
    = Ok "2022-01-03".
Proof. vm_compute; reflexivity. Qed.

(** C3 (amended): for a page text that holds the phrase "vaccine doses
    dispensed as at friday 14th january 2022", without the comma, as the
    first place where the words "vaccine doses dispensed as at " stand,
    [_parse_date] returns "2022-01-14". *)
Theorem C3_parse_date (pre post : string) :
  Str.find Pat.date_anchor (pre ++ sample_date_phrase ++ post)
    = Some (String.length pre) ->
  Kenya._parse_date (pre ++ sample_date_phrase ++ post) = Ok "2022-01-14".
Proof.
  induction pre as [|c pre IH]; intros H.
  - vm_compute. reflexivity.
  - change (String c pre ++ sample_date_phrase ++ post)
      with (String c (pre ++ sample_date_phrase ++ post)) in *.
    rewrite DateFacts.find_cons in H.
    destruct (Str.starts_with Pat.date_anchor
                (String c (pre ++ sample_date_phrase ++ post))) eqn:E;
      [discriminate |].
    rewrite DateFacts.parse_date_skip by assumption.
    apply IH.
    destruct (Str.find Pat.date_anchor (pre ++ sample_date_phrase ++ post));
      simpl in H; [| discriminate].
    injection H as H. now rewrite H.
Qed.

Lemma C3_parse_date_witness :
  Kenya._parse_date sample_page0 = Ok "2022-01-14".
Proof.
  apply (C3_parse_date "ministry of health "
           (" " ++ sample_metrics ++ " " ++ sample_teen ++ " end")).
  vm_compute; reflexivity.
Defined.

(** ** The link on the landing page *)

Module LinkFacts.

(** An anchor passes the filter only through an href that the pattern
    is found in. *)
Lemma href_matches_inv a :
  Kenya.href_matches a = true ->
  exists h m, href a = Some h /\ Re.search Pat.pdf_link h = Some m.
Proof.
  unfold Kenya.href_matches. destruct (href a) as [h|]; [| discriminate].
  destruct (Re.search Pat.pdf_link h) as [m|] eqn:E; [| discriminate].
  intros _. now exists h, m.
Qed.

(** The pattern is case sensitive: the capital letters stand in the
    text it is found in. *)
Lemma pdf_link_capitals h m :
  Re.search Pat.pdf_link h = Some m ->
  Str.contains "IMMUNIZATION" h = true.
Proof.
  intros H.
  destruct (ReFacts.search_sound _ _ _ H) as (pre & rest & Hh & M).
  change Pat.pdf_link
    with (Re.Seq (Re.Star Chr.is_dot)
            (Re.Seq (Re.Lit "IMMUNIZATION")
               (Re.Cat [Re.Star Chr.is_dot; Re.Lit "pdf"; Re.Eol]))) in M.
  apply ReFacts.matches_Seq in M as (w1 & w2 & g1 & Hw & _ & M).
  apply ReFacts.matches_Seq in M as (w3 & w4 & g2 & Hw2 & M & _).
  apply ReFacts.matches_Lit in M as [-> _].
  rewrite Hh, Hw, Hw2.
  rewrite !StrFacts.app_assoc, <- (StrFacts.app_assoc pre w1).
  apply StrFacts.contains_app.
Qed.

Lemma first_match_split (doc : soup) :
  (exists a, In a doc /\ Kenya.href_matches a = true) ->
  exists before a after,
    doc = (before ++ a :: after)%list /\
    (forall b, In b before -> Kenya.href_matches b = false) /\
    Kenya.href_matches a = true /\
    Kenya.soup_find doc = Some a.
Proof.
  unfold Kenya.soup_find.
  induction doc as [|x doc IH]; intros (a & Ha & Hm); [contradiction |].
  destruct (Kenya.href_matches x) eqn:Ex.
  - exists [], x, doc. simpl. rewrite Ex. repeat split; tauto.
  - destruct IH as (before & y & after & -> & Hb & Hy & Hf).
    { destruct Ha as [-> | Ha]; [congruence | now exists a]. }
    exists (x :: before), y, after. simpl. rewrite Ex.
    repeat split; try assumption.
    intros b [<- | Hin]; [assumption | now apply Hb].
Qed.

Lemma no_match_find (doc : soup) :
  (forall a, In a doc -> Kenya.href_matches a = false) ->
  Kenya.find_href doc = Raise TypeError.
Proof.
  unfold Kenya.find_href, Kenya.soup_find. intros H.
  destruct (List.find Kenya.href_matches doc) as [a|] eqn:E;
    [| reflexivity].
  apply List.find_some in E as [Hin Hm].
  rewrite (H a Hin) in Hm. discriminate.
Qed.

Lemma find_href_ok doc h :
  Kenya.find_href doc = Ok h ->
  exists a m, In a doc /\ href a = Some h /\
              Re.search Pat.pdf_link h = Some m.
Proof.
  unfold Kenya.find_href, Kenya.soup_find.
  destruct (List.find Kenya.href_matches doc) as [a|] eqn:E;
    [| discriminate].
  apply List.find_some in E as [Hin Hm].
  destruct (href_matches_inv _ Hm) as (h' & m & Hh & Hs).
  rewrite Hh. intros [= <-]. now exists a, m.
Qed.

(** The address of the landing page does not pass the filter, so the
    link that is found is another address. *)
Lemma not_the_landing_page h m :
  Re.search Pat.pdf_link h = Some m -> h <> Kenya.source_url.
Proof. intros H ->. vm_compute in H. discriminate. Qed.

Lemma parse_pdf_link_run w url doc t :
  get_soup w url = Ok doc ->
  Kenya._parse_pdf_link w url t =
    (Kenya.find_href doc, (t ++ [EvGetSoup url])%list).
Proof.
  intros H. unfold Kenya._parse_pdf_link, IO.bind, IO.emit, IO.lift.
  now rewrite H.
Qed.

End LinkFacts.

(** C8: on a landing page with an anchor whose href the pattern is
    found in, [_parse_pdf_link] returns the href of the first such
    anchor of the page; that href holds the word IMMUNIZATION in
    capitals, so an href with the word in another case is passed
    over. *)
Theorem C8_first_matching_anchor
        (w : world) (url : string) (doc : soup) (t : trace) :
  get_soup w url = Ok doc ->
  (exists a, In a doc /\ Kenya.href_matches a = true) ->
  exists before a after h,
    doc = (before ++ a :: after)%list /\
    (forall b, In b before -> Kenya.href_matches b = false) /\
    Kenya.href_matches a = true /\ href a = Some h /\
    Kenya._parse_pdf_link w url t = (Ok h, (t ++ [EvGetSoup url])%list) /\
    Str.contains "IMMUNIZATION" h = true.
Proof.
  intros Hs Hex.
  destruct (LinkFacts.first_match_split doc Hex)
    as (before & a & after & Hd & Hb & Ha & Hf).
  destruct (LinkFacts.href_matches_inv a Ha) as (h & m & Hh & Hm).
  exists before, a, after, h. repeat split; try assumption.
  - rewrite (LinkFacts.parse_pdf_link_run w url doc t Hs).
    unfold Kenya.find_href. now rewrite Hf, Hh.
  - exact (LinkFacts.pdf_link_capitals h m Hm).
Qed.

Lemma C8_first_matching_anchor_witness :
  Kenya.href_matches
    (Anchor (Some "https://www.health.go.ke/immunization-status-report.pdf"))
    = false
  /\ exists before a after h,
       sample_soup = (before ++ a :: after)%list /\
       (forall b, In b before -> Kenya.href_matches b = false) /\
       Kenya.href_matches a = true /\ href a = Some h /\
       Kenya._parse_pdf_link sample_world Kenya.source_url []
         = (Ok h, ([] ++ [EvGetSoup Kenya.source_url])%list) /\
       Str.contains "IMMUNIZATION" h = true.
Proof.
  split; [vm_compute; reflexivity |].
  apply (C8_first_matching_anchor sample_world Kenya.source_url
           sample_soup []).
  - vm_compute; reflexivity.
  - exists (Anchor (Some sample_pdf_url)). split.
    + right; right; right; left; reflexivity.
    + vm_compute; reflexivity.
Defined.

(** C7: when no anchor of the landing page passes the filter, the run
    ends in [_parse_pdf_link] with the TypeError of subscripting None;
    the only event of the run is the request for the landing page: the
    PDF address is not printed and not requested. *)
Theorem C7_no_link_no_download (w : world) (doc : soup) (t : trace) :
  get_soup w Kenya.source_url = Ok doc ->
  (forall a, In a doc -> Kenya.href_matches a = false) ->
  Kenya._parse_pdf_link w Kenya.source_url t
    = (Raise TypeError, (t ++ [EvGetSoup Kenya.source_url])%list)
  /\ Kenya.read w t
     = (Raise TypeError, (t ++ [EvGetSoup Kenya.source_url])%list)
  /\ Kenya.to_csv w t
     = (Raise TypeError, (t ++ [EvGetSoup Kenya.source_url])%list)
  /\ Kenya.main w = (Raise TypeError, [EvGetSoup Kenya.source_url])
  /\ forall u, ~ In (EvRequestsGet u) (snd (Kenya.main w)).
Proof.
  intros Hs Hno.
  assert (L : forall t0, Kenya._parse_pdf_link w Kenya.source_url t0
    = (Raise TypeError, (t0 ++ [EvGetSoup Kenya.source_url])%list)).
  { intros t0. rewrite (LinkFacts.parse_pdf_link_run _ _ _ _ Hs).
    now rewrite (LinkFacts.no_match_find doc Hno). }
  assert (Rd : forall t0, Kenya.read w t0
    = (Raise TypeError, (t0 ++ [EvGetSoup Kenya.source_url])%list)).
  { intros t0. unfold Kenya.read, IO.bind. now rewrite L. }
  assert (Cs : forall t0, Kenya.to_csv w t0
    = (Raise TypeError, (t0 ++ [EvGetSoup Kenya.source_url])%list)).
  { intros t0. unfold Kenya.to_csv, IO.bind. now rewrite Rd. }
  repeat split; try easy.
  - apply (Cs []).
  - intros u. unfold Kenya.main. rewrite (Cs []). simpl.
    intros [H | []]. discriminate.
Qed.

Lemma C7_no_link_no_download_witness :
  let w := World (fun _ => Ok [Anchor None;
                               Anchor (Some "https://www.health.go.ke/immunization.pdf");
                               Anchor (Some "https://www.health.go.ke/IMMUNIZATION.docx")])
                 (fun _ => Ok sample_pages) in
  Kenya.main w = (Raise TypeError, [EvGetSoup Kenya.source_url]).
Proof.
  intros w.
  refine (proj1 (proj2 (proj2 (proj2
    (C7_no_link_no_download w
       [Anchor None;
        Anchor (Some "https://www.health.go.ke/immunization.pdf");
        Anchor (Some "https://www.health.go.ke/IMMUNIZATION.docx")]
       [] _ _))))).
  - reflexivity.
  - intros a [<- | [<- | [<- | []]]]; vm_compute; reflexivity.
Defined.

(** ** The row that is written *)

Module RunFacts.

Lemma bind_inv_ok {A B} (c : IO.io A) (f : A -> IO.io B) t b t' :
  IO.bind c f t = (Ok b, t') ->
  exists a t1, c t = (Ok a, t1) /\ f a t1 = (Ok b, t').
Proof.
  unfold IO.bind. destruct (c t) as [[a | e] t1]; [| discriminate].
  intros H. now exists a, t1.
Qed.

Lemma lift_inv_ok {A} (r : result A) t a t1 :
  IO.lift r t = (Ok a, t1) -> r = Ok a /\ t1 = t.
Proof. unfold IO.lift. intros [= -> ->]. now split. Qed.

Lemma parse_pdf_link_inv w url t h t1 :
  Kenya._parse_pdf_link w url t = (Ok h, t1) ->
  t1 = (t ++ [EvGetSoup url])%list /\
  exists doc, get_soup w url = Ok doc /\ Kenya.find_href doc = Ok h.
Proof.
  unfold Kenya._parse_pdf_link, IO.bind, IO.emit, IO.lift.
  destruct (get_soup w url) as [doc | e]; [| discriminate].
  intros [= H <-]. split; [reflexivity | now exists doc].
Qed.

Lemma get_text_inv w url t pages t1 :
  Kenya._get_text_from_pdf w url t = (Ok pages, t1) ->
  t1 = (t ++ [EvPrint url; EvRequestsGet url])%list.
Proof.
  unfold Kenya._get_text_from_pdf, IO.bind, IO.emit, IO.lift, IO.ret.
  destruct (pdf_text w url) as [raw | e]; [| discriminate].
  destruct (first_page raw); [| discriminate].
  intros [= _ <-]. now rewrite <- List.app_assoc.
Qed.

(** A run of [read] that returns: the row has the five fields, and
    its source_url is the link that was found. *)
Lemma read_inv w t ds t1 :
  Kenya.read w t = (Ok ds, t1) ->
  exists url tv pv pf date,
    Kenya._parse_pdf_link w Kenya.source_url t
      = (Ok url, (t ++ [EvGetSoup Kenya.source_url])%list) /\
    t1 = (t ++ [EvGetSoup Kenya.source_url; EvPrint url;
                EvRequestsGet url])%list /\
    ds = [("total_vaccinations", Series.VInt tv);
          ("people_vaccinated", Series.VInt pv);
          ("people_fully_vaccinated", Series.VInt pf);
          ("date", Series.VStr date);
          ("source_url", Series.VStr url)].
Proof.
  unfold Kenya.read. intros H.
  apply bind_inv_ok in H as (url & t0 & Hl & H).
  destruct (parse_pdf_link_inv _ _ _ _ _ Hl) as [-> _].
  apply bind_inv_ok in H as (pages & t2 & Hg & H).
  apply get_text_inv in Hg as ->.
  apply bind_inv_ok in H as ([[tv pv] pf] & t3 & Hm & H).
  apply lift_inv_ok in Hm as [_ ->].
  apply bind_inv_ok in H as (page0 & t4 & Hp & H).
  apply lift_inv_ok in Hp as [_ ->].
  apply bind_inv_ok in H as (date & t5 & Hd & H).
  apply lift_inv_ok in Hd as [_ ->].
  unfold IO.ret in H. injection H as <- <-.
  exists url, tv, pv, pf, date. repeat split; [assumption |].
  now rewrite <- List.app_assoc.
Qed.

End RunFacts.

(** C10: in a run that ends well, one row is written, and its
    source_url is the link that [_parse_pdf_link] found on the landing
    page, an address that is not the address of the landing page kept in
    the object. *)
Theorem C10_source_url_is_the_link (w : world) (t t' : trace) :
  Kenya.to_csv w t = (Ok tt, t') ->
  exists url tv pv pf date,
    Kenya._parse_pdf_link w Kenya.source_url t
      = (Ok url, (t ++ [EvGetSoup Kenya.source_url])%list) /\
    t' = (t ++ [EvGetSoup Kenya.source_url; EvPrint url; EvRequestsGet url;
                EvIncrement
                  (Series.Scalar (Series.VStr "Kenya"))
                  (Series.Scalar (Series.VInt tv))
                  (Series.Scalar (Series.VInt pv))
                  (Series.Scalar (Series.VInt pf))
                  (Series.Scalar (Series.VStr date))
                  (Series.Scalar (Series.VStr url))
                  (Series.Scalar
                     (Series.VStr "Oxford/AstraZeneca, Sputnik V"))])%list /\
    url <> Kenya.source_url.
Proof.
  unfold Kenya.to_csv. intros H.
  apply RunFacts.bind_inv_ok in H as (ds & t1 & Hr & H).
  destruct (RunFacts.read_inv _ _ _ _ Hr)
    as (url & tv & pv & pf & date & Hl & -> & ->).
  exists url, tv, pv, pf, date. split; [assumption |]. split.
  - cbv -[List.app] in H. injection H as <-.
    now rewrite <- List.app_assoc.
  - destruct (RunFacts.parse_pdf_link_inv _ _ _ _ _ Hl)
      as (_ & doc & _ & Hf).
    destruct (LinkFacts.find_href_ok _ _ Hf) as (a & m & _ & _ & Hm).
    exact (LinkFacts.not_the_landing_page _ _ Hm).
Qed.

Lemma C10_source_url_is_the_link_witness :
  exists url tv pv pf date,
    Kenya._parse_pdf_link sample_world Kenya.source_url []
      = (Ok url, ([] ++ [EvGetSoup Kenya.source_url])%list) /\
    snd (Kenya.main sample_world)
      = ([] ++ [EvGetSoup Kenya.source_url; EvPrint url; EvRequestsGet url;
                EvIncrement
                  (Series.Scalar (Series.VStr "Kenya"))
                  (Series.Scalar (Series.VInt tv))
                  (Series.Scalar (Series.VInt pv))
                  (Series.Scalar (Series.VInt pf))
                  (Series.Scalar (Series.VStr date))
                  (Series.Scalar (Series.VStr url))
                  (Series.Scalar
                     (Series.VStr "Oxford/AstraZeneca, Sputnik V"))])%list /\
    url <> Kenya.source_url.
Proof.
  apply (C10_source_url_is_the_link sample_world []).
  vm_compute; reflexivity.
Defined.

(** * Further properties *)

(** ** Page text: what normalising leaves *)

Module TextFacts.
Import Str.

Lemma lower_space c : Chr.is_space (Chr.lower c) = Chr.is_space c.
Proof. destruct c as [[] [] [] [] [] [] [] []]; reflexivity. Qed.

Lemma lower_lower c : Chr.lower (Chr.lower c) = Chr.lower c.
Proof. destruct c as [[] [] [] [] [] [] [] []]; reflexivity. Qed.

Lemma lower_no_capital c : Shape.no_capital (Chr.lower c) = true.
Proof. destruct c as [[] [] [] [] [] [] [] []]; reflexivity. Qed.

Lemma space_newline c :
  Chr.is_space c = false -> Ascii.eqb c Chr.newline = false.
Proof. destruct c as [[] [] [] [] [] [] [] []]; vm_compute; congruence. Qed.

Lemma map_app f a b : map f (a ++ b) = map f a ++ map f b.
Proof. induction a as [|c a IH]; simpl; [reflexivity | now rewrite IH]. Qed.

Lemma all_app p a b : all p (a ++ b) = all p a && all p b.
Proof.
  induction a as [|c a IH]; simpl; [reflexivity |].
  now rewrite IH, andb_assoc.
Qed.

(** The words of a text. *)
Lemma split_go_words s :
  all (fun c => negb (Chr.is_space c)) (fst (split_go s)) = true /\
  forallb Shape.word (snd (split_go s)) = true.
Proof.
  induction s as [|c s [IHw IHs]]; simpl; [now split |].
  destruct (split_go s) as [w ws]; simpl in *.
  destruct (Chr.is_space c) eqn:E; simpl.
  - split; [reflexivity |].
    destruct w as [|x w]; simpl; [assumption |].
    simpl in IHw. now rewrite IHw, IHs.
  - now rewrite E, IHw.
Qed.

Lemma split_words s : forallb Shape.word (split s) = true.
Proof.
  unfold split. destruct (split_go_words s) as [Hw Hs].
  destruct (split_go s) as [w ws]; simpl in *.
  destruct w as [|x w]; simpl; [assumption |].
  simpl in Hw. now rewrite Hw, Hs.
Qed.

Lemma split_go_word_app w s :
  all (fun c => negb (Chr.is_space c)) w = true ->
  split_go (w ++ s) = (w ++ fst (split_go s), snd (split_go s)).
Proof.
  induction w as [|c w IH]; simpl; intros H.
  - now destruct (split_go s).
  - apply andb_true_iff in H as [Hc Hw].
    rewrite (IH Hw). apply negb_true_iff in Hc. now rewrite Hc.
Qed.

Lemma split_space s : split (String " " s) = split s.
Proof. unfold split; simpl. now destruct (split_go s) as [[|x w] ws]. Qed.

Lemma split_word_space w s :
  Shape.word w = true -> split (w ++ String " " s) = w :: split s.
Proof.
  intros H. destruct w as [|c w]; [discriminate |].
  unfold Shape.word in H. unfold split at 1.
  rewrite (split_go_word_app _ _ H).
  change (split_go (String " " s))
    with (let (w0, ws) := split_go s in (EmptyString, push_word w0 ws)).
  unfold split. destruct (split_go s) as [w0 ws]; simpl.
  now rewrite StrFacts.app_nil_r.
Qed.

Lemma split_word w : Shape.word w = true -> split w = [w].
Proof.
  intros H. destruct w as [|c w]; [discriminate |].
  unfold Shape.word in H. unfold split.
  rewrite <- (StrFacts.app_nil_r (String c w)) at 1.
  rewrite (split_go_word_app _ _ H). simpl.
  now rewrite StrFacts.app_nil_r.
Qed.

(** [" ".join(words).split()] gives the words back. *)
Lemma split_join ws :
  forallb Shape.word ws = true -> split (join " " ws) = ws.
Proof.
  induction ws as [|w ws IH]; [reflexivity |].
  simpl forallb. intros H. apply andb_true_iff in H as [Hw Hws].
  rewrite SplitFacts.join_cons. destruct ws as [|w' ws].
  - now apply split_word.
  - change (w ++ " " ++ join " " (w' :: ws))
      with (w ++ String " " (join " " (w' :: ws))).
    rewrite (split_word_space _ _ Hw). now rewrite (IH Hws).
Qed.

Lemma lower_join ws :
  lower (join " " ws) = join " " (List.map lower ws).
Proof.
  induction ws as [|w ws IH]; [reflexivity |].
  rewrite SplitFacts.join_cons. simpl List.map. rewrite SplitFacts.join_cons.
  destruct ws as [|w' ws]; [reflexivity |].
  unfold lower in *. rewrite map_app. simpl List.map in *.
  change (map Chr.lower (" " ++ join " " (w' :: ws)))
    with (String " " (map Chr.lower (join " " (w' :: ws)))).
  now rewrite IH.
Qed.

Lemma lower_word w : Shape.word (lower w) = Shape.word w.
Proof.
  destruct w as [|c w]; [reflexivity |].
  unfold Shape.word, lower. simpl map. cbv beta iota.
  change (String (Chr.lower c) (map Chr.lower w))
    with (map Chr.lower (String c w)).
  generalize (String c w) as s. clear.
  induction s as [|c s IH]; simpl; [reflexivity |].
  now rewrite lower_space, IH.
Qed.

Lemma lower_words ws :
  forallb Shape.word (List.map lower ws) = forallb Shape.word ws.
Proof.
  induction ws as [|w ws IH]; simpl; [reflexivity |].
  now rewrite lower_word, IH.
Qed.

Lemma lower_idem s : lower (lower s) = lower s.
Proof.
  unfold lower. induction s as [|c s IH]; simpl; [reflexivity |].
  now rewrite lower_lower, IH.
Qed.

Lemma remove_newlines_app a b :
  remove_newlines (a ++ b) = remove_newlines a ++ remove_newlines b.
Proof.
  unfold remove_newlines.
  induction a as [|c a IH]; simpl; [reflexivity |].
  destruct (negb (Ascii.eqb c Chr.newline)); simpl; now rewrite IH.
Qed.

Lemma remove_newlines_word w :
  all (fun c => negb (Chr.is_space c)) w = true -> remove_newlines w = w.
Proof.
  unfold remove_newlines.
  induction w as [|c w IH]; simpl; [reflexivity |]. intros H.
  apply andb_true_iff in H as [Hc Hw]. apply negb_true_iff in Hc.
  now rewrite (space_newline _ Hc), (IH Hw).
Qed.

Lemma word_all w :
  Shape.word w = true -> all (fun c => negb (Chr.is_space c)) w = true.
Proof. destruct w; [discriminate | trivial]. Qed.

Lemma remove_newlines_join ws :
  forallb Shape.word ws = true ->
  remove_newlines (join " " ws) = join " " ws.
Proof.
  induction ws as [|w ws IH]; [reflexivity |].
  simpl forallb. intros H. apply andb_true_iff in H as [Hw Hws].
  rewrite SplitFacts.join_cons. destruct ws as [|w' ws].
  - now apply remove_newlines_word, word_all.
  - rewrite !remove_newlines_app, (IH Hws).
    now rewrite (remove_newlines_word _ (word_all _ Hw)).
Qed.

(** The page text is its lower-case words joined by single spaces. *)
Lemma extract_words raw :
  exists ws, forallb Shape.word ws = true /\
             List.map lower ws = ws /\
             Kenya._extract_pdf_text raw = join " " ws.
Proof.
  exists (List.map lower (split (remove_newlines raw))).
  split; [| split].
  - rewrite lower_words. apply split_words.
  - rewrite List.map_map. apply List.map_ext. intros; apply lower_idem.
  - unfold Kenya._extract_pdf_text. apply lower_join.
Qed.

Lemma extract_join ws :
  forallb Shape.word ws = true -> List.map lower ws = ws ->
  Kenya._extract_pdf_text (join " " ws) = join " " ws.
Proof.
  intros Hw Hl. unfold Kenya._extract_pdf_text.
  rewrite (remove_newlines_join _ Hw), (split_join _ Hw), lower_join.
  now rewrite Hl.
Qed.

End TextFacts.

(** X1: [_extract_pdf_text] is idempotent: a page text that went
    through it comes out of it unchanged. *)
Theorem extract_pdf_text_idempotent (raw : string) :
  Kenya._extract_pdf_text (Kenya._extract_pdf_text raw)
    = Kenya._extract_pdf_text raw.
Proof.
  destruct (TextFacts.extract_words raw) as (ws & Hw & Hl & ->).
  now apply TextFacts.extract_join.
Qed.

Module ShapeFacts.
Import Str.

Lemma join_head ws :
  forallb Shape.word ws = true ->
  match join " " ws with
  | EmptyString => ws = []
  | String c _ => Chr.is_space c = false
  end.
Proof.
  destruct ws as [|w ws]; [reflexivity |].
  simpl forallb. intros H. apply andb_true_iff in H as [Hw _].
  rewrite SplitFacts.join_cons.
  destruct w as [|c w]; [discriminate |].
  simpl in Hw. apply andb_true_iff in Hw as [Hc _].
  apply negb_true_iff in Hc. now destruct ws.
Qed.

Lemma word_plain w :
  all (fun c => negb (Chr.is_space c)) w = true ->
  all Shape.plain_space w = true.
Proof.
  induction w as [|c w IH]; simpl; [reflexivity |]. intros H.
  apply andb_true_iff in H as [Hc Hw].
  unfold Shape.plain_space at 1. now rewrite Hc, (IH Hw).
Qed.

Lemma join_plain ws :
  forallb Shape.word ws = true -> all Shape.plain_space (join " " ws) = true.
Proof.
  induction ws as [|w ws IH]; [reflexivity |].
  simpl forallb. intros H. apply andb_true_iff in H as [Hw Hws].
  rewrite SplitFacts.join_cons. destruct ws as [|w' ws].
  - now apply word_plain, TextFacts.word_all.
  - rewrite !TextFacts.all_app, (IH Hws).
    now rewrite (word_plain _ (TextFacts.word_all _ Hw)).
Qed.

(** No two spaces in a row. *)
Lemma starts_two_spaces c s :
  starts_with "  " (String c s) = Ascii.eqb " " c && starts_with " " s.
Proof. reflexivity. Qed.

Lemma contains_word_app w x :
  all (fun c => negb (Chr.is_space c)) w = true ->
  contains "  " (w ++ x) = contains "  " x.
Proof.
  induction w as [|c w IH]; cbn [append]; [reflexivity |]. intros H.
  simpl in H. apply andb_true_iff in H as [Hc Hw].
  change (contains "  " (String c (w ++ x)))
    with (starts_with "  " (String c (w ++ x)) || contains "  " (w ++ x)).
  rewrite (IH Hw), (starts_two_spaces c (w ++ x)).
  destruct (Ascii.eqb " " c) eqn:E; [| reflexivity].
  apply Ascii.eqb_eq in E; subst c. discriminate.
Qed.

Lemma join_single_spaced ws :
  forallb Shape.word ws = true -> contains "  " (join " " ws) = false.
Proof.
  induction ws as [|w ws IH]; [reflexivity |].
  simpl forallb. intros H. apply andb_true_iff in H as [Hw Hws].
  rewrite SplitFacts.join_cons. destruct ws as [|w' ws].
  - rewrite <- (StrFacts.app_nil_r w).
    now rewrite (contains_word_app _ _ (TextFacts.word_all _ Hw)).
  - rewrite (contains_word_app _ _ (TextFacts.word_all _ Hw)).
    specialize (IH Hws). pose proof (join_head _ Hws) as Hh.
    destruct (join " " (w' :: ws)) as [|c s] eqn:J; [discriminate |].
    change (" " ++ String c s) with (String " " (String c s)).
    change (contains "  " (String " " (String c s)))
      with (starts_with "  " (String " " (String c s))
            || contains "  " (String c s)).
    rewrite IH, orb_false_r, starts_two_spaces.
    change (starts_with " " (String c s))
      with (Ascii.eqb " " c && true).
    destruct (Ascii.eqb " " c) eqn:E; [| reflexivity].
    apply Ascii.eqb_eq in E; subst c. discriminate.
Qed.

(** No whitespace at the ends. *)
Lemma lstrip_join ws :
  forallb Shape.word ws = true -> lstrip (join " " ws) = join " " ws.
Proof.
  intros H. pose proof (join_head _ H) as Hh.
  destruct (join " " ws) as [|c s]; [reflexivity |].
  simpl. now rewrite Hh.
Qed.

Lemma rstrip_word w :
  all (fun c => negb (Chr.is_space c)) w = true -> rstrip w = w.
Proof.
  induction w as [|c w IH]; [reflexivity |]. simpl all. intros H.
  apply andb_true_iff in H as [Hc Hw]. apply negb_true_iff in Hc.
  rewrite (SplitFacts.rstrip_cons_word _ _ Hc). now rewrite (IH Hw).
Qed.

Lemma rstrip_app a x :
  x <> EmptyString -> rstrip x = x -> rstrip (a ++ x) = a ++ x.
Proof.
  intros Hx E. induction a as [|c a IH]; [exact E |].
  simpl. rewrite IH.
  destruct (a ++ x) eqn:A; [| reflexivity].
  destruct a; [simpl in A; contradiction | discriminate].
Qed.

Lemma rstrip_join ws :
  forallb Shape.word ws = true -> rstrip (join " " ws) = join " " ws.
Proof.
  induction ws as [|w ws IH]; [reflexivity |].
  simpl forallb. intros H. apply andb_true_iff in H as [Hw Hws].
  rewrite SplitFacts.join_cons. destruct ws as [|w' ws].
  - now apply rstrip_word, TextFacts.word_all.
  - specialize (IH Hws). pose proof (join_head _ Hws) as Hh.
    rewrite <- StrFacts.app_assoc.
    apply rstrip_app; [| exact IH].
    now destruct (join " " (w' :: ws)).
Qed.

Lemma lower_no_capitals s : all Shape.no_capital (lower s) = true.
Proof.
  unfold lower. induction s as [|c s IH]; simpl; [reflexivity |].
  now rewrite TextFacts.lower_no_capital, IH.
Qed.

(** Texts without words. *)
Lemma split_blank s : split s = [] <-> all Chr.is_space s = true.
Proof.
  unfold split. induction s as [|c s IH]; simpl; [tauto |].
  destruct (split_go s) as [w ws].
  destruct (Chr.is_space c); simpl.
  - exact IH.
  - split; discriminate.
Qed.

Lemma newline_space c :
  Ascii.eqb c Chr.newline = true -> Chr.is_space c = true.
Proof.
  intros H. destruct (Chr.is_space c) eqn:E; [reflexivity |].
  rewrite (TextFacts.space_newline _ E) in H. discriminate.
Qed.

Lemma remove_newlines_blank s :
  all Chr.is_space (remove_newlines s) = all Chr.is_space s.
Proof.
  unfold remove_newlines. induction s as [|c s IH]; simpl; [reflexivity |].
  destruct (Ascii.eqb c Chr.newline) eqn:E; simpl.
  - now rewrite (newline_space _ E), IH.
  - now rewrite IH.
Qed.

Lemma join_nil ws :
  forallb Shape.word ws = true -> join " " ws = EmptyString -> ws = [].
Proof.
  intros H E. pose proof (join_head _ H) as Hh. now rewrite E in Hh.
Qed.

Lemma lower_nil s : lower s = EmptyString -> s = EmptyString.
Proof. destruct s; [reflexivity | discriminate]. Qed.

End ShapeFacts.

(** X2: the text [_extract_pdf_text] returns has no whitespace but
    the plain space, no two spaces in a row, no space at either end, and
    no capital letter: lower-casing it changes nothing. *)
Theorem extract_pdf_text_shape (raw : string) :
  let text := Kenya._extract_pdf_text raw in
  Str.all Shape.plain_space text = true /\
  Str.contains "  " text = false /\
  Str.strip text = text /\
  Str.lower text = text /\
  Str.all Shape.no_capital text = true.
Proof.
  intros text.
  assert (C : Str.all Shape.no_capital text = true)
    by apply ShapeFacts.lower_no_capitals.
  revert C. unfold text.
  destruct (TextFacts.extract_words raw) as (ws & Hw & Hl & ->).
  intros C. repeat split.
  - now apply ShapeFacts.join_plain.
  - now apply ShapeFacts.join_single_spaced.
  - unfold Str.strip.
    now rewrite ShapeFacts.lstrip_join, ShapeFacts.rstrip_join.
  - now rewrite TextFacts.lower_join, Hl.
  - exact C.
Qed.

(** X3: [_extract_pdf_text] returns the empty text exactly for the
    raw texts that are whitespace throughout. *)
Theorem extract_pdf_text_blank (raw : string) :
  Kenya._extract_pdf_text raw = EmptyString
  <-> Str.all Chr.is_space raw = true.
Proof.
  unfold Kenya._extract_pdf_text.
  rewrite <- ShapeFacts.remove_newlines_blank, <- ShapeFacts.split_blank.
  split.
  - intros H. apply ShapeFacts.lower_nil in H.
    apply ShapeFacts.join_nil; [apply TextFacts.split_words | exact H].
  - now intros ->.
Qed.

(** ** The matcher finds what there is to find *)

Module CompleteFacts.
Import Re.

Section Complete.
Context {R : Type}.

Lemma star_complete (p : ascii -> bool) (w rest : string)
      (k : string -> string -> option R) :
  Str.all p w = true -> k w rest <> None -> star p (w ++ rest) k <> None.
Proof.
  revert k; induction w as [|c w IH]; intros k Hw Hk.
  - simpl. destruct rest as [|c rest]; simpl; [assumption |].
    destruct (p c); [| assumption].
    unfold orelse. now destruct (star p rest _).
  - simpl in Hw. apply andb_true_iff in Hw as [Hc Hw].
    simpl. rewrite Hc. unfold orelse.
    specialize (IH (fun w0 rest0 => k (String c w0) rest0) Hw Hk).
    now destruct (star p (w ++ rest) _).
Qed.

(** Backtracking tries every way a pattern can match: where there is a
    match that the rest of the pattern accepts, the run does not fail. *)
Lemma run_complete r g w rest g' :
  matches r g w rest g' ->
  forall k : @cont R, k w rest g' <> None -> run r (w ++ rest) g k <> None.
Proof.
  induction 1 as [ g rest | c g rest | p c g rest Hp
                 | r1 r2 g g1 g2 w1 w2 rest M1 IH1 M2 IH2
                 | r g g' w rest M IH | r g rest | p g w rest Hw
                 | n r g g' w rest M IH | g rest Hr ];
    intros k Hk; simpl.
  - assumption.
  - now rewrite Ascii.eqb_refl.
  - now rewrite Hp.
  - rewrite StrFacts.app_assoc. apply IH1. now apply IH2.
  - unfold orelse. specialize (IH k Hk). now destruct (run r (w ++ rest) g k).
  - unfold orelse. now destruct (run r rest g k).
  - now apply star_complete.
  - now apply IH.
  - destruct Hr as [-> | ->]; [assumption |].
    now rewrite Ascii.eqb_refl.
Qed.
End Complete.

Lemma match_here_complete r w rest g' :
  matches r [] w rest g' -> match_here r (w ++ rest) <> None.
Proof.
  intros M. unfold match_here. apply (run_complete _ _ _ _ _ M). discriminate.
Qed.

Lemma search_complete r pre w rest g' :
  matches r [] w rest g' -> search r (pre ++ w ++ rest) <> None.
Proof.
  intros M. induction pre as [|c pre IH].
  - rewrite DateFacts.search_unfold.
    pose proof (match_here_complete _ _ _ _ M) as H.
    simpl append. now destruct (match_here r (w ++ rest)).
  - rewrite DateFacts.search_unfold.
    now destruct (match_here r (String c pre ++ w ++ rest)).
Qed.

Lemma matches_Lit_intro l g rest : matches (Lit l) g l rest g.
Proof.
  induction l as [|c l IH]; simpl; [constructor |].
  change (String c l) with (String c "" ++ l).
  econstructor; [constructor | exact IH].
Qed.

End CompleteFacts.

(** ** The link filter *)

Module LinkShape.
Import Re.

Lemma found_shape h m :
  search Pat.pdf_link h = Some m -> Shape.report_link h.
Proof.
  intros H.
  destruct (ReFacts.search_sound _ _ _ H) as (pre & rest & Hh & M).
  unfold Pat.pdf_link in M. cbn [Cat] in M.
  apply ReFacts.matches_Seq in M as (w1 & x1 & g1 & Hw1 & _ & M).
  apply ReFacts.matches_Seq in M as (w2 & x2 & g2 & Hw2 & M2 & M).
  apply ReFacts.matches_Lit in M2 as [-> _].
  apply ReFacts.matches_Seq in M as (w3 & x3 & g3 & Hw3 & M3 & M).
  apply ReFacts.matches_Seq in M as (w4 & x4 & g4 & Hw4 & M4 & M).
  apply ReFacts.matches_Lit in M4 as [-> _].
  apply ReFacts.matches_Seq in M as (w5 & x5 & g5 & Hw5 & M5 & M6).
  inversion M3; subst. inversion M6; subst. inversion M5; subst.
  exists (pre ++ w1), w3, rest. split; [| split].
  - rewrite Hw1, !StrFacts.app_assoc. reflexivity.
  - assumption.
  - simpl in *. assumption.
Qed.

Lemma shape_found h :
  Shape.report_link h -> search Pat.pdf_link h <> None.
Proof.
  intros (pre & mid & e & -> & Hmid & He).
  assert (M : matches Pat.pdf_link []
                ("" ++ "IMMUNIZATION" ++ mid ++ "pdf" ++ "" ++ "") e []).
  { unfold Pat.pdf_link. cbn [Cat].
    eapply M_Seq; [apply M_Star; reflexivity |].
    eapply M_Seq; [apply CompleteFacts.matches_Lit_intro |].
    eapply M_Seq; [apply M_Star; exact Hmid |].
    eapply M_Seq; [apply CompleteFacts.matches_Lit_intro |].
    eapply M_Seq; [apply M_Eol; exact He | apply M_Eps]. }
  pose proof (CompleteFacts.search_complete _ pre _ _ _ M) as S.
  simpl in S. simpl.
  rewrite !StrFacts.app_assoc in S. simpl in S.
  exact S.
Qed.

End LinkShape.

(** X4: an anchor passes the filter of [_parse_pdf_link] exactly when
    it has an href that holds IMMUNIZATION in capitals and after it, with
    no line feed in between, pdf at its end (one last line feed may
    follow). *)
Theorem href_matches_iff (a : anchor) :
  Kenya.href_matches a = true
  <-> exists h, href a = Some h /\ Shape.report_link h.
Proof.
  unfold Kenya.href_matches. split.
  - destruct (href a) as [h|]; [| discriminate].
    destruct (Re.search Pat.pdf_link h) as [m|] eqn:E; [| discriminate].
    intros _. exists h. split; [reflexivity |].
    exact (LinkShape.found_shape _ _ E).
  - intros (h & -> & Hs). apply LinkShape.shape_found in Hs.
    now destruct (Re.search Pat.pdf_link h).
Qed.

(** ** Running the patterns forward *)

Module MatchFacts.
Import Re Shape.

Section Forward.
Context {R : Type}.
Implicit Types (k : @cont R) (g : captures).

Lemma run_Seq r1 r2 s g k :
  run (Seq r1 r2) s g k =
    run r1 s g (fun w1 s1 g1 =>
    run r2 s1 g1 (fun w2 s2 g2 => k (w1 ++ w2) s2 g2)).
Proof. reflexivity. Qed.

Lemma run_Grp n r s g k :
  run (Grp n r) s g k = run r s g (fun w s' g' => k w s' ((n, w) :: g')).
Proof. reflexivity. Qed.

Lemma run_Chr c s g k :
  run (Chr c) (String c s) g k = k (String c EmptyString) s g.
Proof. simpl. now rewrite Ascii.eqb_refl. Qed.

Lemma run_Chr_app c s g k :
  run (Chr c) (String c EmptyString ++ s) g k = k (String c EmptyString) s g.
Proof. apply run_Chr. Qed.

Lemma run_Lit l s g k : run (Lit l) (l ++ s) g k = k l s g.
Proof.
  revert k; induction l as [|c l IH]; intros k; [reflexivity |].
  cbn [Lit append]. rewrite run_Seq, run_Chr. now rewrite IH.
Qed.

Lemma run_Lit_fail l s g k :
  Str.starts_with l s = false -> run (Lit l) s g k = None.
Proof.
  revert s k; induction l as [|c l IH]; intros s k H; [discriminate |].
  cbn [Lit]. rewrite run_Seq.
  destruct s as [|c' s]; [reflexivity |].
  simpl in H. simpl run at 1.
  destruct (Ascii.eqb c c'); [| reflexivity].
  now apply IH.
Qed.

(** Greedy repetition takes the whole run when the rest of the pattern
    accepts what follows. *)
Lemma star_greedy p w rest (k : string -> string -> option R) x :
  Str.all p w = true -> stops p rest = true ->
  k w rest = Some x -> star p (w ++ rest) k = Some x.
Proof.
  revert k; induction w as [|c w IH]; intros k Hw Hs Hk.
  - destruct rest as [|c rest]; simpl; [assumption |].
    simpl in Hs. apply negb_true_iff in Hs. now rewrite Hs.
  - simpl in Hw. apply andb_true_iff in Hw as [Hc Hw].
    simpl. rewrite Hc.
    now rewrite (IH (fun w0 rest0 => k (String c w0) rest0) Hw Hs Hk).
Qed.

Lemma run_Plus p w rest g k x :
  run_of p w = true -> stops p rest = true ->
  k w rest g = Some x -> run (Plus p) (w ++ rest) g k = Some x.
Proof.
  intros Hw Hs Hk. destruct w as [|c w]; [discriminate |].
  simpl in Hw. apply andb_true_iff in Hw as [Hc Hw].
  unfold Plus. rewrite run_Seq. simpl. rewrite Hc.
  now apply star_greedy.
Qed.

Lemma run_years y s g k x :
  spelled_years y = true ->
  k y s g = Some x -> run Pat.years (y ++ s) g k = Some x.
Proof.
  unfold spelled_years. simpl existsb. intros H Hk.
  repeat (apply orb_true_iff in H as [H | H];
          [apply String.eqb_eq in H; subst y; simpl; now rewrite Hk |]).
  discriminate.
Qed.

Lemma run_Opt_skip r s g k :
  run r s g k = None -> run (Opt r) s g k = k EmptyString s g.
Proof. intros H. simpl. now rewrite H. Qed.

Lemma run_Opt_take r s g k x :
  run r s g k = Some x -> run (Opt r) s g k = Some x.
Proof. intros H. simpl. now rewrite H. Qed.

End Forward.

(** A pattern that starts with fixed words is looked for where the
    words first stand. *)
Lemma anchor_no_match a r s :
  Str.starts_with a s = false -> match_here (Seq (Lit a) r) s = None.
Proof.
  intros H. unfold match_here. rewrite run_Seq. now apply run_Lit_fail.
Qed.

Lemma search_from_anchor a r pre s :
  Str.find a (pre ++ s) = Some (String.length pre) ->
  search (Seq (Lit a) r) (pre ++ s) = search (Seq (Lit a) r) s.
Proof.
  induction pre as [|c pre IH]; intros H; [reflexivity |].
  cbn [append] in *. rewrite DateFacts.find_cons in H.
  destruct (Str.starts_with a (String c (pre ++ s))) eqn:E; [discriminate |].
  rewrite DateFacts.search_unfold, (anchor_no_match _ _ _ E).
  apply IH.
  destruct (Str.find a (pre ++ s)); simpl in H; [| discriminate].
  injection H as H. now rewrite H.
Qed.

(** Where the words stand nowhere, nothing is found. *)
Lemma search_no_anchor a r s :
  Str.contains a s = false -> search (Seq (Lit a) r) s = None.
Proof.
  induction s as [|c s IH]; intros H.
  - simpl in H. rewrite orb_false_r in H.
    rewrite DateFacts.search_unfold. now rewrite (anchor_no_match _ _ _ H).
  - change (Str.contains a (String c s))
      with (Str.starts_with a (String c s) || Str.contains a s) in H.
    apply orb_false_iff in H as [H1 H2].
    rewrite DateFacts.search_unfold, (anchor_no_match _ _ _ H1).
    now apply IH.
Qed.

End MatchFacts.

(** ** The figures of page one *)

Module FigureFacts.
Import Re Shape MatchFacts.

(** The first pattern of [_parse_metrics] on the labelled figures. *)
Lemma metrics_here y1 n1 y2 n2 n3 tail :
  spelled_years y1 = true -> spelled_years y2 = true ->
  run_of Pat.num_dot n1 = true -> run_of Pat.num_dot n2 = true ->
  run_of Pat.num_dot n3 = true -> stops Pat.num_dot tail = true ->
  exists m, match_here Pat.metrics (metrics_text y1 n1 y2 n2 n3 tail) = Some m
            /\ groups m = [(3, n3); (2, n2); (1, n1)].
Proof.
  intros Y1 Y2 N1 N2 N3 T. eexists. split.
  - unfold match_here, Pat.metrics, metrics_text, metrics_anchor.
    cbn [Cat].
    rewrite run_Seq, run_Lit.
    rewrite run_Seq. apply run_years; [exact Y1 |]. cbv beta.
    rewrite run_Seq, run_Chr_app.
    rewrite run_Seq, run_Grp. apply run_Plus; [exact N1 | reflexivity |].
    cbv beta. rewrite run_Seq, run_Lit.
    rewrite run_Seq. apply run_years; [exact Y2 |]. cbv beta.
    rewrite run_Seq, run_Chr_app.
    rewrite run_Seq, run_Grp. apply run_Plus; [exact N2 | reflexivity |].
    cbv beta. rewrite run_Seq, run_Lit.
    rewrite run_Seq, run_Grp. apply run_Plus; [exact N3 | exact T |].
    cbn [run]. reflexivity.
  - reflexivity.
Qed.

Lemma teen_here n tail :
  run_of Pat.num n = true -> stops Pat.num tail = true ->
  exists m, match_here Pat.teen (teen_text n tail) = Some m
            /\ groups m = [(1, n)].
Proof.
  intros N T. eexists. split.
  - unfold match_here, Pat.teen, teen_text, teen_anchor. cbn [Cat].
    rewrite run_Seq, run_Lit.
    rewrite run_Seq, run_Grp. apply run_Plus; [exact N | exact T |].
    cbn [run]. reflexivity.
  - reflexivity.
Qed.

Lemma metrics_search pre y1 n1 y2 n2 n3 tail :
  Str.find metrics_anchor (pre ++ metrics_text y1 n1 y2 n2 n3 tail)
    = Some (String.length pre) ->
  spelled_years y1 = true -> spelled_years y2 = true ->
  run_of Pat.num_dot n1 = true -> run_of Pat.num_dot n2 = true ->
  run_of Pat.num_dot n3 = true -> stops Pat.num_dot tail = true ->
  exists m,
    search Pat.metrics (pre ++ metrics_text y1 n1 y2 n2 n3 tail) = Some m
    /\ groups m = [(3, n3); (2, n2); (1, n1)].
Proof.
  intros F Y1 Y2 N1 N2 N3 T.
  destruct (metrics_here y1 n1 y2 n2 n3 tail Y1 Y2 N1 N2 N3 T)
    as (m & Hm & Hg).
  exists m. split; [| exact Hg].
  change Pat.metrics with (Seq (Lit metrics_anchor)
    (Cat [Pat.years; Chr " "; Grp 1 (Plus Pat.num_dot);
          Lit " total partially vaccinated above 18 "; Pat.years; Chr " ";
          Grp 2 (Plus Pat.num_dot);
          Lit " total fully vaccinated above 18 yrs ";
          Grp 3 (Plus Pat.num_dot)])) in *.
  rewrite (search_from_anchor _ _ _ _ F).
  rewrite DateFacts.search_unfold. now rewrite Hm.
Qed.

Lemma teen_search pre n tail :
  Str.find teen_anchor (pre ++ teen_text n tail)
    = Some (String.length pre) ->
  run_of Pat.num n = true -> stops Pat.num tail = true ->
  exists m, search Pat.teen (pre ++ teen_text n tail) = Some m
            /\ groups m = [(1, n)].
Proof.
  intros F N T.
  destruct (teen_here n tail N T) as (m & Hm & Hg).
  exists m. split; [| exact Hg].
  change Pat.teen
    with (Seq (Lit teen_anchor) (Cat [Grp 1 (Plus Pat.num)])) in *.
  rewrite (search_from_anchor _ _ _ _ F).
  rewrite DateFacts.search_unfold. now rewrite Hm.
Qed.

End FigureFacts.

(** X5: when page one holds the three labelled figures and the
    teenagers' figure, each where its label first stands,
    [_parse_metrics] cleans exactly these four texts and returns their
    sums with the J&J doses: whatever the figures, and with any of the
    spellings yrs, yers, yars, years. *)
Theorem parse_metrics_figures
        (page0 : string) (rest : list string)
        (pre tail pre_t tail_t y1 y2 n1 n2 n3 nt : string) :
  page0 = pre ++ Shape.metrics_text y1 n1 y2 n2 n3 tail ->
  page0 = pre_t ++ Shape.teen_text nt tail_t ->
  Str.find Shape.metrics_anchor page0 = Some (String.length pre) ->
  Str.find Shape.teen_anchor page0 = Some (String.length pre_t) ->
  Shape.spelled_years y1 = true -> Shape.spelled_years y2 = true ->
  Shape.run_of Pat.num_dot n1 = true ->
  Shape.run_of Pat.num_dot n2 = true ->
  Shape.run_of Pat.num_dot n3 = true ->
  Shape.stops Pat.num_dot tail = true ->
  Shape.run_of Pat.num nt = true ->
  Shape.stops Pat.num tail_t = true ->
  Kenya._parse_metrics (page0 :: rest) =
    (adults_total <- clean_count n1 ;;
     adults_partial <- clean_count n2 ;;
     fully <- clean_count n3 ;;
     teens <- clean_count nt ;;
     jj <- Kenya._extract_jj_doses (page0 :: rest) ;;
     Ok ((adults_total + teens)%Z, (adults_partial + jj + teens)%Z,
         fully))%res.
Proof.
  intros E1 E2 F1 F2 Y1 Y2 N1 N2 N3 T NT TT.
  rewrite E1 in F1. rewrite E2 in F2.
  destruct (FigureFacts.metrics_search _ _ _ _ _ _ _ F1 Y1 Y2 N1 N2 N3 T)
    as (m & Hm & Hg).
  destruct (FigureFacts.teen_search _ _ _ F2 NT TT) as (mt & Hmt & Hgt).
  rewrite <- E1 in Hm. rewrite <- E2 in Hmt.
  unfold Kenya._parse_metrics, search_group, Re.group.
  cbn [first_page rbind]. rewrite Hm, Hg, Hmt, Hgt. cbn [Re.assoc Nat.eqb].
  reflexivity.
Qed.

Lemma parse_metrics_figures_witness :
  Kenya._parse_metrics
    [ "kenya " ++ Shape.metrics_text "yrs" "1,234,567" "years" "1.200.000"
                    "987,654."
                    (" and " ++ Shape.teen_text "45,678" " in all");
      sample_table5 sample_header "50,000" ]
  = Ok ((1234567 + 45678)%Z, (1200000 + 50000 + 45678)%Z, 987654%Z).
Proof.
  rewrite (parse_metrics_figures _ _
             "kenya " (" and " ++ Shape.teen_text "45,678" " in all")
             ("kenya " ++ Shape.metrics_text "yrs" "1,234,567" "years"
                            "1.200.000" "987,654." " and ")
             " in all" "yrs" "years" "1,234,567" "1.200.000" "987,654."
             "45,678");
    vm_compute; reflexivity.
Defined.

(** C6: wherever the sample text of the bulletin stands on page one,
    at the first place where its opening words stand and with no digit,
    comma or full stop right after its last figure (the sample text may
    be all of page one), the first pattern of [_parse_metrics] is found
    there with the groups "1,000,000", "900,000" and "800,000"; these
    clean to 1000000, 900000 and 800000; and [_parse_metrics] goes on
    with these three counters: what it returns is built from them. *)
Theorem C6_parse_metrics_sample_counters
        (page0 pre tail : string) (rest : list string) :
  page0 = pre ++ sample_metrics ++ tail ->
  Str.find Shape.metrics_anchor page0 = Some (String.length pre) ->
  Shape.stops Pat.num_dot tail = true ->
  (exists data,
     Re.search Pat.metrics page0 = Some data /\
     Re.group 1 data = Some "1,000,000" /\
     Re.group 2 data = Some "900,000" /\
     Re.group 3 data = Some "800,000") /\
  clean_count "1,000,000" = Ok 1000000%Z /\
  clean_count "900,000" = Ok 900000%Z /\
  clean_count "800,000" = Ok 800000%Z /\
  Kenya._parse_metrics (page0 :: rest) =
    (t <- search_group Pat.teen 1 page0 ;;
     teens <- clean_count t ;;
     jj <- Kenya._extract_jj_doses (page0 :: rest) ;;
     Ok ((1000000 + teens)%Z, (900000 + jj + teens)%Z, 800000%Z))%res.
Proof.
  intros E F T.
  assert (E' : page0 = pre ++ Shape.metrics_text "years" "1,000,000" "years"
                                "900,000" "800,000" tail)
    by (rewrite E; reflexivity).
  rewrite E' in F.
  destruct (FigureFacts.metrics_search _ _ _ _ _ _ _ F
              eq_refl eq_refl eq_refl eq_refl eq_refl T) as (m & Hm & Hg).
  rewrite <- E' in Hm.
  split; [| split; [reflexivity | split; [reflexivity
                                         | split; [reflexivity |]]]].
  - exists m. unfold Re.group. rewrite Hg. now repeat split.
  - unfold Kenya._parse_metrics, Re.group.
    cbn [first_page rbind]. rewrite Hm, Hg. cbn [Re.assoc Nat.eqb].
    change (clean_count "1,000,000") with (Ok (A:=Z) 1000000%Z).
    change (clean_count "900,000") with (Ok (A:=Z) 900000%Z).
    change (clean_count "800,000") with (Ok (A:=Z) 800000%Z).
    reflexivity.
Qed.

Lemma C6_parse_metrics_sample_counters_witness :
  (exists data,
     Re.search Pat.metrics sample_page0 = Some data /\
     Re.group 1 data = Some "1,000,000" /\
     Re.group 2 data = Some "900,000" /\
     Re.group 3 data = Some "800,000") /\
  clean_count "1,000,000" = Ok 1000000%Z /\
  clean_count "900,000" = Ok 900000%Z /\
  clean_count "800,000" = Ok 800000%Z /\
  Kenya._parse_metrics sample_pages =
    Ok ((1000000 + 12345)%Z, (900000 + 50000 + 12345)%Z, 800000%Z).
Proof.
  exact (C6_parse_metrics_sample_counters
           sample_page0 ("ministry of health " ++ sample_date_phrase ++ " ")
           (" " ++ sample_teen ++ " end")
           ["page two"; sample_table5 sample_header "50,000"]
           eq_refl eq_refl eq_refl).
Defined.

Module FoundFacts.
Import Re Shape.

Lemma matches_Chr c g w rest g' :
  matches (Chr c) g w rest g' -> w = String c EmptyString /\ g' = g.
Proof. intros M; inversion M; subst. now split. Qed.

Lemma matches_Eps g w rest g' :
  matches Eps g w rest g' -> w = EmptyString /\ g' = g.
Proof. intros M; inversion M; subst. now split. Qed.



Lemma matches_figure n p g w rest g' :
  matches (Grp n (Plus p)) g w rest g' ->
  run_of p w = true /\ g' = (n, w) :: g.
Proof.
  intros M. apply ReFacts.matches_Grp in M as (g1 & -> & M).
  apply ReFacts.matches_Plus in M as (-> & Hw & Hn).
  split; [| reflexivity].
  destruct w; [now elim Hn | exact Hw].
Qed.

Lemma matches_run p g w rest g' :
  matches (Plus p) g w rest g' -> run_of p w = true /\ g' = g.
Proof.
  intros M. apply ReFacts.matches_Plus in M as (-> & Hw & Hn).
  split; [| reflexivity].
  destruct w; [now elim Hn | exact Hw].
Qed.



(** Where the total-row pattern is found, a total row stands, and the
    group is its first figure. *)
Lemma total_row_found page m :
  search Pat.rex_jj page = Some m ->
  exists pre jj b c d e post,
    page = pre ++ total_row jj b c d e ++ post /\
    groups m = [(1, jj)] /\
    run_of Pat.num jj = true /\ run_of Pat.num b = true /\
    run_of Pat.num c = true /\ run_of Pat.num d = true /\
    run_of Pat.dec e = true.
Proof.
  intros H.
  destruct (ReFacts.search_sound _ _ _ H) as (pre & post & Hp & M).
  unfold Pat.rex_jj in M. cbn [Cat] in M.
  apply ReFacts.matches_Seq in M as (w1 & x1 & g1 & Hw1 & M1 & M).
  apply (ReFacts.matches_Lit "total ") in M1 as [-> ->].
  apply ReFacts.matches_Seq in M as (jj & x2 & g2 & -> & M2 & M).
  apply matches_figure in M2 as [J ->].
  apply ReFacts.matches_Seq in M as (w3 & x3 & g3 & -> & M3 & M).
  apply matches_Chr in M3 as [-> ->].
  apply ReFacts.matches_Seq in M as (b & x4 & g4 & -> & M4 & M).
  apply matches_run in M4 as [B ->].
  apply ReFacts.matches_Seq in M as (w5 & x5 & g5 & -> & M5 & M).
  apply matches_Chr in M5 as [-> ->].
  apply ReFacts.matches_Seq in M as (c & x6 & g6 & -> & M6 & M).
  apply matches_run in M6 as [C ->].
  apply ReFacts.matches_Seq in M as (w7 & x7 & g7 & -> & M7 & M).
  apply matches_Chr in M7 as [-> ->].
  apply ReFacts.matches_Seq in M as (d & x8 & g8 & -> & M8 & M).
  apply matches_run in M8 as [D ->].
  apply ReFacts.matches_Seq in M as (w9 & x9 & g9 & -> & M9 & M).
  apply matches_Chr in M9 as [-> ->].
  apply ReFacts.matches_Seq in M as (e & x10 & g10 & -> & M10 & M).
  apply matches_run in M10 as [E ->].
  apply ReFacts.matches_Seq in M as (w11 & x11 & g11 & -> & M11 & M).
  apply (ReFacts.matches_Lit "% table 5 shows percentage of clients")
    in M11 as [-> G].
  apply matches_Eps in M as [-> ->].
  exists pre, jj, b, c, d, e, post.
  split; [| split; [exact G | repeat split; assumption]].
  rewrite Hp, Hw1. unfold total_row.
  rewrite !StrFacts.app_assoc. reflexivity.
Qed.

Lemma search_group_inv r n page w :
  search_group r n page = Ok w ->
  exists m, search r page = Some m /\ group n m = Some w.
Proof.
  unfold search_group. destruct (search r page) as [m|]; [| discriminate].
  destruct (group n m) as [w'|] eqn:G; [| discriminate].
  intros [= <-]. now exists m.
Qed.

End FoundFacts.



(** X7: when the words "total doses administered above 18 " stand
    nowhere on page one, [_parse_metrics] ends with AttributeError,
    whatever the other pages hold. *)
Theorem parse_metrics_absent (page0 : string) (rest : list string) :
  Str.contains Shape.metrics_anchor page0 = false ->
  Kenya._parse_metrics (page0 :: rest) = Raise AttributeError.
Proof.
  intros H. unfold Kenya._parse_metrics. cbn [first_page rbind].
  change Pat.metrics with (Re.Seq (Re.Lit Shape.metrics_anchor)
    (Re.Cat [Pat.years; Re.Chr " "; Re.Grp 1 (Re.Plus Pat.num_dot);
          Re.Lit " total partially vaccinated above 18 "; Pat.years;
          Re.Chr " "; Re.Grp 2 (Re.Plus Pat.num_dot);
          Re.Lit " total fully vaccinated above 18 yrs ";
          Re.Grp 3 (Re.Plus Pat.num_dot)])).
  now rewrite (MatchFacts.search_no_anchor _ _ _ H).
Qed.

Lemma parse_metrics_absent_witness :
  Kenya._parse_metrics
    ["cover page"; sample_table5 sample_header_drifted "50,000"]
  = Raise AttributeError.
Proof. apply parse_metrics_absent. vm_compute; reflexivity. Defined.

(** ** The date line *)

Module DateShape.
Import Re Shape MatchFacts.

(** The weekday is not taken for the optional "day ". *)
Lemma weekday_not_day wd s :
  run_of Chr.is_lower_az wd = true -> wd <> "day" ->
  Str.starts_with "day " (wd ++ " " ++ s) = false.
Proof.
  intros H N.
  destruct wd as [|c1 [|c2 [|c3 [|c4 wd]]]]; try discriminate.
  - cbn [append Str.starts_with].
    destruct (Ascii.eqb "d" c1); [| reflexivity]. reflexivity.
  - cbn [append Str.starts_with].
    destruct (Ascii.eqb "d" c1); [| reflexivity].
    destruct (Ascii.eqb "a" c2); [| reflexivity]. reflexivity.
  - cbn [append Str.starts_with].
    destruct (Ascii.eqb "d" c1) eqn:E1; [| reflexivity].
    destruct (Ascii.eqb "a" c2) eqn:E2; [| reflexivity].
    destruct (Ascii.eqb "y" c3) eqn:E3; [| reflexivity].
    apply Ascii.eqb_eq in E1, E2, E3. subst. now elim N.
  - cbn [append Str.starts_with].
    destruct (Ascii.eqb "d" c1); [| reflexivity].
    destruct (Ascii.eqb "a" c2); [| reflexivity].
    destruct (Ascii.eqb "y" c3); [| reflexivity].
    destruct (Ascii.eqb " " c4) eqn:E4; [| reflexivity].
    apply Ascii.eqb_eq in E4. subst c4.
    simpl in H. rewrite !andb_false_r in H. discriminate.
Qed.

Lemma date_here wd d comma mon y tail :
  run_of Chr.is_lower_az wd = true -> wd <> "day" ->
  run_of Pat.alnum d = true ->
  (comma = EmptyString \/ comma = ",") ->
  run_of Chr.is_lower_az mon = true ->
  Chr.is_digit y = true ->
  exists m, match_here Pat.date (date_text wd d comma mon y tail) = Some m
            /\ group 2 m = Some (date_phrase d comma mon y).
Proof.
  intros W ND D C M Y.
  assert (S : forall k : @cont match_obj,
             run (Opt (Grp 1 (Lit "day "))) (wd ++ " " ++ d ++ comma ++ " "
               ++ mon ++ " 202" ++ String y tail) [] k
             = k EmptyString (wd ++ " " ++ d ++ comma ++ " "
               ++ mon ++ " 202" ++ String y tail) []).
  { intros k. apply run_Opt_skip. rewrite run_Grp.
    apply run_Lit_fail, weekday_not_day; assumption. }
  destruct C as [-> | ->]; eexists; split.
  - unfold match_here, Pat.date, date_text. cbn [Cat].
    rewrite run_Seq, run_Lit, run_Seq, S.
    rewrite run_Seq. apply run_Plus; [exact W | reflexivity |]. cbv beta.
    rewrite run_Seq, run_Chr_app.
    rewrite run_Seq, run_Grp, run_Seq.
    change ("" ++ " " ++ mon ++ " 202" ++ String y tail)
      with (" " ++ mon ++ " 202" ++ String y tail).
    apply run_Plus; [exact D | reflexivity |]. cbv beta.
    rewrite run_Seq, run_Opt_skip by reflexivity.
    rewrite run_Seq, run_Chr_app.
    rewrite run_Seq. apply run_Plus; [exact M | reflexivity |]. cbv beta.
    rewrite run_Seq, run_Lit.
    cbn [run]. rewrite Y. reflexivity.
  - reflexivity.
  - unfold match_here, Pat.date, date_text. cbn [Cat].
    rewrite run_Seq, run_Lit, run_Seq, S.
    rewrite run_Seq. apply run_Plus; [exact W | reflexivity |]. cbv beta.
    rewrite run_Seq, run_Chr_app.
    rewrite run_Seq, run_Grp, run_Seq.
    apply run_Plus; [exact D | reflexivity |]. cbv beta.
    rewrite run_Seq. apply run_Opt_take.
    rewrite run_Chr_app.
    rewrite run_Seq, run_Chr_app.
    rewrite run_Seq. apply run_Plus; [exact M | reflexivity |]. cbv beta.
    rewrite run_Seq, run_Lit.
    cbn [run]. rewrite Y. reflexivity.
  - reflexivity.
Qed.

End DateShape.

(** X8: on a date line of the form "vaccine doses dispensed as at
    weekday day[,] month 202x", at the first place where its opening
    words stand, the pattern of [_parse_date] is found and its second
    group, the [date_str] of the code, is the part from the day on:
    "day[,] month 202x".  The weekday is not part of it, and neither is
    anything after the year. *)
Theorem parse_date_phrase
        (text pre wd d comma mon : string) (y : ascii) (tail : string) :
  text = pre ++ Shape.date_text wd d comma mon y tail ->
  Str.find Pat.date_anchor text = Some (String.length pre) ->
  Shape.run_of Chr.is_lower_az wd = true -> wd <> "day" ->
  Shape.run_of Pat.alnum d = true ->
  (comma = EmptyString \/ comma = ",") ->
  Shape.run_of Chr.is_lower_az mon = true ->
  Chr.is_digit y = true ->
  search_group Pat.date 2 text = Ok (Shape.date_phrase d comma mon y).
Proof.
  intros -> F W ND D C M Y.
  destruct (DateShape.date_here wd d comma mon y tail W ND D C M Y)
    as (m & Hm & Hg).
  unfold search_group.
  unfold Pat.date at 1.
  rewrite (MatchFacts.search_from_anchor _ _ _ _ F).
  rewrite DateFacts.search_unfold.
  unfold Pat.date in Hm. rewrite Hm.
  now rewrite Hg.
Qed.

Lemma parse_date_phrase_witness :
  search_group Pat.date 2
    "status report: vaccine doses dispensed as at monday 3rd, march 2021 total doses"
  = Ok "3rd, march 2021".
Proof.
  rewrite (parse_date_phrase _ "status report: " "monday" "3rd" "," "march"
             "1" " total doses").
  - reflexivity.
  - reflexivity.
  - vm_compute; reflexivity.
  - reflexivity.
  - discriminate.
  - reflexivity.
  - now right.
  - reflexivity.
  - reflexivity.
Defined.

(** X9: when the words "vaccine doses dispensed as at " stand nowhere
    in the text, [_parse_date] ends with AttributeError. *)
Theorem parse_date_absent (text : string) :
  Str.contains Pat.date_anchor text = false ->
  Kenya._parse_date text = Raise AttributeError.
Proof.
  intros H. unfold Kenya._parse_date, search_group, Pat.date.
  now rewrite (MatchFacts.search_no_anchor _ _ _ H).
Qed.

Lemma parse_date_absent_witness :
  Kenya._parse_date "ministry of health, 14th january 2022"
  = Raise AttributeError.
Proof. apply parse_date_absent. vm_compute; reflexivity. Defined.

(** ** The scan for table 5, read backwards *)

Module ScanInv.

Lemma search_group_found r n page d :
  search_group r n page = Ok d -> exists m, Re.search r page = Some m.
Proof.
  unfold search_group. destruct (Re.search r page) as [m|]; [| discriminate].
  intros _. now exists m.
Qed.

Lemma search_group_raises r n page e :
  search_group r n page = Raise e -> e = AttributeError \/ e = TypeError.
Proof.
  unfold search_group. destruct (Re.search r page) as [m|].
  - destruct (Re.group n m); [discriminate |]. intros [= <-]. now right.
  - intros [= <-]. now left.
Qed.

Lemma read_is_readable page h d :
  Re.search Pat.rex_header page = Some h ->
  search_group Pat.rex_jj 1 page = Ok d ->
  Spec.readable page = true.
Proof.
  intros Hh Hd. apply search_group_found in Hd as [m Hm].
  unfold Spec.readable. now rewrite Hh, Hm.
Qed.

(** The loop passes over the pages without the marker. *)
Lemma jj_loop_filter pages acc :
  Kenya.jj_loop (List.filter Spec.has_marker pages) acc
    = Kenya.jj_loop pages acc.
Proof.
  revert acc; induction pages as [|page pages IH]; intros acc;
    [reflexivity |].
  cbn [List.filter]. destruct (Spec.has_marker page) eqn:Hm.
  - cbn [Kenya.jj_loop]. unfold Spec.has_marker in Hm. rewrite Hm.
    destruct (Re.search Pat.rex_header page); [| reflexivity].
    destruct (search_group Pat.rex_jj 1 page); [| reflexivity].
    cbn [rbind]. apply IH.
  - rewrite (ScanFacts.jj_loop_skip _ _ _ Hm). apply IH.
Qed.

(** A loop that ends without an exception has read every marker page. *)
Lemma jj_loop_ok pages acc r :
  Kenya.jj_loop pages acc = Ok r -> Spec.marker_pages_readable pages = true.
Proof.
  revert acc; induction pages as [|page pages IH]; intros acc H;
    [reflexivity |].
  unfold Spec.marker_pages_readable. cbn [forallb].
  fold (Spec.marker_pages_readable pages).
  cbn [Kenya.jj_loop] in H. unfold Spec.has_marker.
  destruct (Str.contains Pat.table5_marker page).
  - destruct (Re.search Pat.rex_header page) as [h|] eqn:Hh;
      [| discriminate].
    destruct (search_group Pat.rex_jj 1 page) as [d|] eqn:Hd;
      [| discriminate].
    cbn [rbind] in H.
    rewrite (read_is_readable _ _ _ Hh Hd). cbn [negb orb andb].
    exact (IH _ H).
  - cbn [negb orb andb]. exact (IH _ H).
Qed.

(** A loop that ends with the header exception met a marker page
    without the header, after marker pages it could read. *)
Lemma jj_loop_header_changed pages acc :
  Kenya.jj_loop pages acc = Raise Pat.header_changed ->
  exists before page after,
    pages = (before ++ page :: after)%list /\
    Spec.marker_pages_readable before = true /\
    Spec.has_marker page = true /\
    Re.search Pat.rex_header page = None.
Proof.
  revert acc; induction pages as [|page pages IH]; intros acc H;
    [discriminate |].
  cbn [Kenya.jj_loop] in H.
  destruct (Str.contains Pat.table5_marker page) eqn:Hm.
  - destruct (Re.search Pat.rex_header page) as [h|] eqn:Hh.
    + destruct (search_group Pat.rex_jj 1 page) as [d|e] eqn:Hd.
      * cbn [rbind] in H.
        destruct (IH _ H) as (before & q & after & -> & Hb & Hq & Hn).
        exists (page :: before), q, after. repeat split; try assumption.
        unfold Spec.marker_pages_readable. cbn [forallb].
        fold (Spec.marker_pages_readable before).
        rewrite (read_is_readable _ _ _ Hh Hd), Hb.
        now rewrite orb_true_r.
      * cbn [rbind] in H. injection H as ->.
        apply search_group_raises in Hd as [Hd | Hd]; discriminate.
    + exists [], page, pages. now repeat split.
  - destruct (IH _ H) as (before & q & after & -> & Hb & Hq & Hn).
    exists (page :: before), q, after. repeat split; try assumption.
    unfold Spec.marker_pages_readable. cbn [forallb].
    fold (Spec.marker_pages_readable before).
    unfold Spec.has_marker. now rewrite Hm, Hb.
Qed.

End ScanInv.

(** X10: pages without the table-5 marker have no part in
    [_extract_jj_doses]: leaving them out gives the same result. *)
Theorem extract_jj_ignores_other_pages (pages : list string) :
  Kenya._extract_jj_doses (List.filter Spec.has_marker pages)
    = Kenya._extract_jj_doses pages.
Proof.
  unfold Kenya._extract_jj_doses. now rewrite ScanInv.jj_loop_filter.
Qed.

(** X11: when [_extract_jj_doses] returns, every marker page passed
    the header check and holds a total row, and the value is the cleaned
    first figure of a total row on the last marker page. *)
Theorem extract_jj_reads_total_row (pages : list string) (n : Z) :
  Kenya._extract_jj_doses pages = Ok n ->
  Spec.marker_pages_readable pages = true /\
  exists page pre jj b c d e post,
    Spec.last_marker_page pages = Some page /\
    page = pre ++ Shape.total_row jj b c d e ++ post /\
    Shape.run_of Pat.num jj = true /\ Shape.run_of Pat.num b = true /\
    Shape.run_of Pat.num c = true /\ Shape.run_of Pat.num d = true /\
    Shape.run_of Pat.dec e = true /\
    clean_count jj = Ok n.
Proof.
  unfold Kenya._extract_jj_doses. intros H.
  destruct (Kenya.jj_loop pages None) as [r|] eqn:L; [| discriminate].
  pose proof (ScanInv.jj_loop_ok _ _ _ L) as R.
  split; [exact R |].
  pose proof (ScanFacts.jj_loop_last pages None R) as K.
  destruct (Spec.last_marker_page pages) as [page|].
  - destruct K as (fig & Hd & K). rewrite K in L. injection L as <-.
    cbn [rbind] in H.
    apply FoundFacts.search_group_inv in Hd as (m & Hm & Hg).
    destruct (FoundFacts.total_row_found _ _ Hm)
      as (pre & jj & b & c & d & e & post & Hp & G & J & B & C & D & E).
    unfold Re.group in Hg. rewrite G in Hg. cbn in Hg.
    injection Hg as <-.
    exists page, pre, jj, b, c, d, e, post. now repeat split.
  - rewrite K in L. injection L as <-. discriminate.
Qed.

Lemma extract_jj_reads_total_row_witness :
  Spec.marker_pages_readable
    ["cover"; sample_table5 sample_header "50,000";
     sample_table5 sample_header "61,234"] = true /\
  exists page pre jj b c d e post,
    Spec.last_marker_page
      ["cover"; sample_table5 sample_header "50,000";
       sample_table5 sample_header "61,234"] = Some page /\
    page = pre ++ Shape.total_row jj b c d e ++ post /\
    Shape.run_of Pat.num jj = true /\ Shape.run_of Pat.num b = true /\
    Shape.run_of Pat.num c = true /\ Shape.run_of Pat.num d = true /\
    Shape.run_of Pat.dec e = true /\
    clean_count jj = Ok 61234%Z.
Proof.
  apply (extract_jj_reads_total_row
           ["cover"; sample_table5 sample_header "50,000";
            sample_table5 sample_header "61,234"]).
  vm_compute; reflexivity.
Defined.

(** X12: [_extract_jj_doses] raises the header exception only for a
    marker page the header pattern is not found on, reached after marker
    pages that could be read. *)
Theorem header_error_means_drift (pages : list string) :
  Kenya._extract_jj_doses pages = Raise Pat.header_changed ->
  exists before page after,
    pages = (before ++ page :: after)%list /\
    Spec.marker_pages_readable before = true /\
    Spec.has_marker page = true /\
    Re.search Pat.rex_header page = None.
Proof.
  unfold Kenya._extract_jj_doses. intros H.
  destruct (Kenya.jj_loop pages None) as [[d|]|e] eqn:L.
  - cbn [rbind] in H. unfold clean_count in H.
    destruct (Str.filter Chr.is_digit d); discriminate.
  - discriminate.
  - cbn [rbind] in H. injection H as ->.
    exact (ScanInv.jj_loop_header_changed _ _ L).
Qed.

Lemma header_error_means_drift_witness :
  exists before page after,
    ["cover"; sample_table5 sample_header "50,000";
     sample_table5 sample_header_drifted "61,234"]
      = (before ++ page :: after)%list /\
    Spec.marker_pages_readable before = true /\
    Spec.has_marker page = true /\
    Re.search Pat.rex_header page = None.
Proof.
  apply (header_error_means_drift
           ["cover"; sample_table5 sample_header "50,000";
            sample_table5 sample_header_drifted "61,234"]).
  vm_compute; reflexivity.
Defined.

(** ** Whole runs *)

Module RunShape.

Lemma to_csv_after_read w t :
  Kenya.to_csv w t =
    match Kenya.read w t with
    | (Ok ds, t1) =>
        (a1 <- IO.lift (Series.getitem "location" (Kenya.pipeline ds)) ;;
         a2 <- IO.lift (Series.getitem "total_vaccinations"
                          (Kenya.pipeline ds)) ;;
         a3 <- IO.lift (Series.getitem "people_vaccinated"
                          (Kenya.pipeline ds)) ;;
         a4 <- IO.lift (Series.getitem "people_fully_vaccinated"
                          (Kenya.pipeline ds)) ;;
         a5 <- IO.lift (Series.getitem "date" (Kenya.pipeline ds)) ;;
         a6 <- IO.lift (Series.getitem "source_url" (Kenya.pipeline ds)) ;;
         a7 <- IO.lift (Series.getitem "vaccine" (Kenya.pipeline ds)) ;;
         IO.emit (EvIncrement a1 a2 a3 a4 a5 a6 a7))%io t1
    | (Raise e, t1) => (Raise e, t1)
    end.
Proof. reflexivity. Qed.

(** What [read] does, stage by stage. *)
Lemma read_stages w t :
  Kenya.read w t =
    match get_soup w Kenya.source_url with
    | Raise e => (Raise e, (t ++ [EvGetSoup Kenya.source_url])%list)
    | Ok doc =>
    match Kenya.find_href doc with
    | Raise e => (Raise e, (t ++ [EvGetSoup Kenya.source_url])%list)
    | Ok url =>
    let t2 := (t ++ [EvGetSoup Kenya.source_url; EvPrint url;
                     EvRequestsGet url])%list in
    match pdf_text w url with
    | Raise e => (Raise e, t2)
    | Ok raw =>
    match first_page raw with
    | Raise e => (Raise e, t2)
    | Ok _ =>
    let pages := List.map Kenya._extract_pdf_text raw in
    match Kenya._parse_metrics pages with
    | Raise e => (Raise e, t2)
    | Ok (tv, pv, pf) =>
    match first_page pages with
    | Raise e => (Raise e, t2)
    | Ok page0 =>
    match Kenya._parse_date page0 with
    | Raise e => (Raise e, t2)
    | Ok date =>
        (Ok [("total_vaccinations", Series.VInt tv);
             ("people_vaccinated", Series.VInt pv);
             ("people_fully_vaccinated", Series.VInt pf);
             ("date", Series.VStr date);
             ("source_url", Series.VStr url)], t2)
    end end end end end end end.
Proof.
  unfold Kenya.read, Kenya._parse_pdf_link, Kenya._get_text_from_pdf,
    IO.bind, IO.emit, IO.lift, IO.ret.
  destruct (get_soup w Kenya.source_url) as [doc|]; [| reflexivity].
  destruct (Kenya.find_href doc) as [url|]; [| reflexivity].
  rewrite <- !List.app_assoc. cbn [List.app].
  destruct (pdf_text w url) as [raw|]; [| reflexivity].
  destruct (first_page raw); [| reflexivity].
  destruct (Kenya._parse_metrics _) as [[[tv pv] pf]|]; [| reflexivity].
  destruct (first_page _) as [page0|]; [| reflexivity].
  destruct (Kenya._parse_date page0); reflexivity.
Qed.

Lemma to_csv_row w t t1 url tv pv pf date :
  Kenya.read w t =
    (Ok [("total_vaccinations", Series.VInt tv);
         ("people_vaccinated", Series.VInt pv);
         ("people_fully_vaccinated", Series.VInt pf);
         ("date", Series.VStr date);
         ("source_url", Series.VStr url)], t1) ->
  Kenya.to_csv w t = (Ok tt, (t1 ++ [Shape.row_event url tv pv pf date])%list).
Proof.
  intros H. rewrite to_csv_after_read, H. reflexivity.
Qed.

End RunShape.

(** X13: every run of [main] is of one of three kinds: it fails
    having requested the landing page only; it fails having printed and
    requested one PDF address after that; or it ends well, and then one
    row was handed to [increment], as the last event.  No failing run
    writes a row. *)
Theorem run_shapes (w : world) :
  (exists e, Kenya.main w = (Raise e, [EvGetSoup Kenya.source_url]))
  \/ (exists e url,
        Kenya.main w = (Raise e, [EvGetSoup Kenya.source_url; EvPrint url;
                                  EvRequestsGet url]))
  \/ (exists url tv pv pf date,
        Kenya.main w = (Ok tt, [EvGetSoup Kenya.source_url; EvPrint url;
                                EvRequestsGet url;
                                Shape.row_event url tv pv pf date])).
Proof.
  unfold Kenya.main.
  pose proof (RunShape.read_stages w []) as R. cbn [List.app] in R.
  destruct (get_soup w Kenya.source_url) as [doc|e].
  2: { left. exists e. now rewrite RunShape.to_csv_after_read, R. }
  destruct (Kenya.find_href doc) as [url|e].
  2: { left. exists e. now rewrite RunShape.to_csv_after_read, R. }
  cbv zeta in R.
  destruct (pdf_text w url) as [raw|e].
  2: { right; left. exists e, url.
       now rewrite RunShape.to_csv_after_read, R. }
  destruct (first_page raw) as [p|e].
  2: { right; left. exists e, url.
       now rewrite RunShape.to_csv_after_read, R. }
  destruct (Kenya._parse_metrics _) as [[[tv pv] pf]|e].
  2: { right; left. exists e, url.
       now rewrite RunShape.to_csv_after_read, R. }
  destruct (first_page _) as [page0|e].
  2: { right; left. exists e, url.
       now rewrite RunShape.to_csv_after_read, R. }
  destruct (Kenya._parse_date page0) as [date|e].
  2: { right; left. exists e, url.
       now rewrite RunShape.to_csv_after_read, R. }
  right; right. exists url, tv, pv, pf, date.
  now rewrite (RunShape.to_csv_row _ _ _ _ _ _ _ _ R).
Qed.

(** X14: when every stage succeeds, [main] ends well and hands to
    [increment] the location Kenya, the parsed counters and date, the
    PDF address and the vaccine list. *)
Theorem main_writes_row
        (w : world) (doc : soup) (url : string) (raw : list string)
        (page0 : string) (tv pv pf : Z) (date : string) :
  get_soup w Kenya.source_url = Ok doc ->
  Kenya.find_href doc = Ok url ->
  pdf_text w url = Ok raw ->
  first_page (List.map Kenya._extract_pdf_text raw) = Ok page0 ->
  Kenya._parse_metrics (List.map Kenya._extract_pdf_text raw)
    = Ok (tv, pv, pf) ->
  Kenya._parse_date page0 = Ok date ->
  Kenya.main w = (Ok tt, [EvGetSoup Kenya.source_url; EvPrint url;
                          EvRequestsGet url; Shape.row_event url tv pv pf date]).
Proof.
  intros Hs Hf Hp H0 Hm Hd. unfold Kenya.main.
  pose proof (RunShape.read_stages w []) as R. cbn [List.app] in R.
  rewrite Hs, Hf in R. cbv zeta in R. rewrite Hp, Hm, H0, Hd in R.
  destruct raw as [|r raw]; [discriminate |]. cbn [first_page] in R.
  now rewrite (RunShape.to_csv_row _ _ _ _ _ _ _ _ R).
Qed.

Lemma main_writes_row_witness :
  Kenya.main sample_world
  = (Ok tt, [EvGetSoup Kenya.source_url; EvPrint sample_pdf_url;
             EvRequestsGet sample_pdf_url;
             Shape.row_event sample_pdf_url 1012345 962345 800000 "2022-01-14"]).
Proof.
  apply (main_writes_row sample_world sample_soup sample_pdf_url
           sample_pages sample_page0);
    vm_compute; reflexivity.
Defined.

(** X15: a download that fails, or a document without pages, ends
    the run with that error after the PDF address was printed and
    requested; no row is written. *)
Theorem pdf_stage_failure
        (w : world) (doc : soup) (url : string) (e : exn) :
  get_soup w Kenya.source_url = Ok doc ->
  Kenya.find_href doc = Ok url ->
  pdf_text w url = Raise e \/ (pdf_text w url = Ok [] /\ e = IndexError) ->
  Kenya.main w = (Raise e, [EvGetSoup Kenya.source_url; EvPrint url;
                            EvRequestsGet url]).
Proof.
  intros Hs Hf Hp. unfold Kenya.main.
  pose proof (RunShape.read_stages w []) as R. cbn [List.app] in R.
  rewrite Hs, Hf in R. cbv zeta in R.
  rewrite RunShape.to_csv_after_read, R.
  destruct Hp as [-> | [-> ->]]; reflexivity.
Qed.

Lemma pdf_stage_failure_witness :
  Kenya.main (World (get_soup sample_world) (fun _ => Ok []))
  = (Raise IndexError, [EvGetSoup Kenya.source_url; EvPrint sample_pdf_url;
                        EvRequestsGet sample_pdf_url])
  /\ Kenya.main (World (get_soup sample_world) (fun _ => Raise IOError))
     = (Raise IOError, [EvGetSoup Kenya.source_url; EvPrint sample_pdf_url;
                        EvRequestsGet sample_pdf_url]).
Proof.
  split.
  - apply (pdf_stage_failure _ sample_soup); [reflexivity | reflexivity |].
    right. now split.
  - apply (pdf_stage_failure _ sample_soup); [reflexivity | reflexivity |].
    now left.
Defined.
